(** * Role-filtered main menu: a shallow embedding of [useMainMenuItems]

    The hook builds two ordered lists of menu entries from literals (the
    asset-labels entry has a templated URL built from the current user) and,
    for a self-service user, filters both lists against a fixed list of
    keys.  The embedding keeps the JavaScript behaviour that matters here:
    values that may be [undefined], truthiness, string conversion inside a
    template literal, optional chaining, and the [TypeError] raised by a
    plain property read on a missing object.

    The same file embeds the currency selector, the import-users dialog
    and the loader and action of the general-settings route. *)

From Stdlib Require Import String Ascii List Bool Arith Lia.
Import ListNotations.
Open Scope list_scope.
Open Scope string_scope.

(** ** JavaScript values and errors *)

Module Js.

(** The values the hook can see in a profile field or as the result of
    the role hook. *)
Inductive value : Type :=
| Undefined
| Null
| Bool (b : bool)
| Str (s : string).

(** Truthiness, as tested by [if (...)] and [... ? ... : ...]. *)
Definition truthy (v : value) : bool :=
  match v with
  | Undefined => false
  | Null => false
  | Bool b => b
  | Str s => negb (s =? "")
  end.

(** String conversion of a [${...}] placeholder. *)
Definition toString (v : value) : string :=
  match v with
  | Undefined => "undefined"
  | Null => "null"
  | Bool true => "true"
  | Bool false => "false"
  | Str s => s
  end.

Inductive error : Type :=
| TypeError (msg : string).

(** Outcome of evaluating an expression: a value or a thrown error. *)
Inductive result (A : Type) : Type :=
| Ok (a : A)
| Throw (e : error).
Arguments Ok {A} a.
Arguments Throw {A} e.

Definition bind {A B : Type} (m : result A) (k : A -> result B) : result B :=
  match m with
  | Ok a => k a
  | Throw e => Throw e
  end.

(** [Array.prototype.includes] on an array of strings: strict equality
    against each element in turn. *)
Fixpoint includes (arr : list string) (x : string) : bool :=
  match arr with
  | [] => false
  | y :: arr' => if y =? x then true else includes arr' x
  end.

End Js.

Import Js.

Notation "x <- m ;; k" := (bind m (fun x => k))
  (at level 61, m at next level, right associativity).

(** ** The user profile *)

Record UserData : Type := mkUser {
  email : value;
  firstName : value;
  lastName : value
}.

(** [user?.field]: [undefined] when the user is missing. *)
Definition optChain (user : option UserData) (field : UserData -> value) : value :=
  match user with
  | None => Undefined
  | Some u => field u
  end.

(** [user.field]: throws when the user is missing. *)
Definition getProp (user : option UserData) (field : UserData -> value) (name : string)
  : result value :=
  match user with
  | None => Throw (TypeError ("Cannot read properties of undefined (reading '" ++ name ++ "')"))
  | Some u => Ok (field u)
  end.

(** ** Menu entries *)

(** An entry of either list.  [icon] is the name given to the [Icon]
    element; [target], [isNew] and [end] are [None] where the literal does
    not set them. *)
Record MenuItem : Type := mkItem {
  icon : string;
  to : string;
  title : string;
  target : option string;
  isNew : option bool;
  end_ : option bool
}.

(** The object the hook returns. *)

Record MainMenuItems : Type := mkMenu {
  menuItemsTop : list MenuItem;
  menuItemsBottom : list MenuItem
}.

(** A literal with only [icon], [to] and [title]. *)
Definition plainItem (i t ttl : string) : MenuItem :=
  mkItem i t ttl None None None.

(** The literal assigned to [menuItemsTop]. *)
Definition menuItemsTop_literal : list MenuItem :=
  [ plainItem "graph" "dashboard" "Dashboard";
    plainItem "asset" "assets" "Assets";
    plainItem "kit" "kits" "Kits";
    plainItem "category" "categories" "Categories";
    plainItem "tag" "tags" "Tags";
    plainItem "location" "locations" "Locations";
    plainItem "calendar" "calendar" "Calendar";
    plainItem "bookings" "bookings" "Bookings" ].

Definition orderTagsBase : string := "https://www.shelf.nu/order-tags?email=".

(** The template literal of the asset-labels entry:
    `https://www.shelf.nu/order-tags?email=${user?.email}${
       user?.firstName ? `&firstName=${user.firstName}` : ""
     }${user?.lastName ? `&lastName=${user.lastName}` : ""}` *)
Definition assetLabelsTo (user : option UserData) : result string :=
  let p1 := toString (optChain user email) in
  p2 <- (if truthy (optChain user firstName)
         then v <- getProp user firstName "firstName" ;;
              Ok ("&firstName=" ++ toString v)
         else Ok "") ;;
  p3 <- (if truthy (optChain user lastName)
         then v <- getProp user lastName "lastName" ;;
              Ok ("&lastName=" ++ toString v)
         else Ok "") ;;
  Ok (orderTagsBase ++ p1 ++ p2 ++ p3).

Definition assetLabelsItem (url : string) : MenuItem :=
  mkItem "asset-label" url "Asset labels" (Some "_blank") (Some true) None.

Definition scannerItem : MenuItem :=
  mkItem "scanQR" "scanner" "QR scanner" None None (Some true).

Definition settingsItem : MenuItem :=
  mkItem "settings" "settings" "Workspace settings" None None (Some true).

(** The literal assigned to [menuItemsBottom]. *)
Definition menuItemsBottom_literal (user : option UserData) : result (list MenuItem) :=
  url <- assetLabelsTo user ;;
  Ok [ assetLabelsItem url; scannerItem; settingsItem ].

Definition itemsToRemove : list string :=
  [ "dashboard"; "categories"; "tags"; "locations"; "settings" ].

(** [items.filter((item) => !remove.includes(item.to))] *)
Definition removeItems (remove : list string) (items : list MenuItem) : list MenuItem :=
  filter (fun item => negb (includes remove (to item))) items.

(** The [if (useUserIsSelfService()) { ... }] block, acting on the two
    variables. *)
Definition roleFilter (isSelfService : value) (m : MainMenuItems) : MainMenuItems :=
  if truthy isSelfService
  then mkMenu (removeItems itemsToRemove (menuItemsTop m))
              (removeItems itemsToRemove (menuItemsBottom m))
  else m.

(** The hook, with the results of [useUserData()] and
    [useUserIsSelfService()] as arguments. *)
Definition useMainMenuItems (user : option UserData) (isSelfService : value)
  : result MainMenuItems :=
  let top := menuItemsTop_literal in
  bottom <- menuItemsBottom_literal user ;;
  Ok (roleFilter isSelfService (mkMenu top bottom)).

(** ** Predicates used to state the properties *)

(** Position of the first occurrence of [needle] in [hay]. *)
Fixpoint indexOf (needle hay : string) : option nat :=
  if prefix needle hay then Some 0
  else match hay with
       | EmptyString => None
       | String _ hay' => option_map S (indexOf needle hay')
       end.

Definition contains (needle hay : string) : bool :=
  match indexOf needle hay with
  | Some _ => true
  | None => false
  end.

(** [c] does not occur in [s]. *)
Fixpoint lacks (c : ascii) (s : string) : bool :=
  match s with
  | EmptyString => true
  | String d s' => negb (Ascii.eqb c d) && lacks c s'
  end.

(** [a] occurs before [b] in [l]. *)
Definition precedes {A : Type} (a b : A) (l : list A) : Prop :=
  exists l1 l2 l3, l = (l1 ++ a :: l2 ++ b :: l3)%list.

(** A name segment of the asset-labels URL, written as a plain
    expression: nothing for a falsy field. *)
Definition nameSegment (key : string) (v : value) : string :=
  if truthy v then "&" ++ key ++ "=" ++ toString v else "".

(** The asset-labels URL written as a plain expression; [assetLabelsTo]
    is shown below to return it for every user. *)
Definition assetLabelsUrl (user : option UserData) : string :=
  orderTagsBase ++ toString (optChain user email)
    ++ nameSegment "firstName" (optChain user firstName)
    ++ nameSegment "lastName" (optChain user lastName).

Definition fullProfile (e f l : string) : option UserData :=
  Some (mkUser (Str e) (Str f) (Str l)).

(** * The currency selector: [CurrencySelector]

    The component keeps three [useState] cells, derives the list it shows
    from the loader's currencies and the search text, and changes its state
    from three handlers: the popover's [onOpenChange], the search input's
    [onChange] and a click on a row. *)

(** [a || b] *)
Definition jsOr (a b : value) : value :=
  if truthy a then a else b.

(** Lower-casing of strings of ASCII characters, to run the selector on
    examples. *)
Definition asciiLower (c : ascii) : ascii :=
  let n := nat_of_ascii c in
  if Nat.leb 65 n && Nat.leb n 90 then ascii_of_nat (n + 32) else c.

Fixpoint asciiToLowerCase (s : string) : string :=
  match s with
  | EmptyString => EmptyString
  | String c s' => String (asciiLower c) (asciiToLowerCase s')
  end.

Module CurrencySelector.

Section WithToLowerCase.

(** [String.prototype.toLowerCase]; nothing is assumed about it. *)
Variable toLowerCase : string -> string.

(** [isOpen], [selectedCurrency] and [searchQuery]. *)
Record State : Type := mkState {
  isOpen : bool;
  selectedCurrency : string;
  searchQuery : string
}.

(** The initial values given to [useState]. *)
Definition init (defaultValue : string) : State :=
  mkState false defaultValue "".

(** The body of the [useMemo]; [contains n h] is [h.includes(n)]. *)
Definition filteredCurrencies (curriences : list string) (searchQuery : string)
  : list string :=
  if searchQuery =? "" then curriences
  else filter (fun currency =>
                 contains (toLowerCase searchQuery) (toLowerCase currency))
              curriences.

Definition setIsOpen (b : bool) (s : State) : State :=
  mkState b (selectedCurrency s) (searchQuery s).

Definition setSelectedCurrency (currency : string) (s : State) : State :=
  mkState (isOpen s) currency (searchQuery s).

Definition setSearchQuery (q : string) (s : State) : State :=
  mkState (isOpen s) (selectedCurrency s) q.

Definition handleSelect (currency : string) (s : State) : State :=
  setIsOpen false (setSelectedCurrency currency s).

(** One rendered row: the currency and [isSelected]. *)
Record Row : Type := mkRow {
  rowCurrency : string;
  isSelected : bool
}.

(** [filteredCurrencies.map((currency) => ...)] *)
Definition rows (curriences : list string) (s : State) : list Row :=
  map (fun currency => mkRow currency (selectedCurrency s =? currency))
      (filteredCurrencies curriences (searchQuery s)).

(** Whether the "No currency found" line is on screen.  The line is a
    child of [PopoverContent], which the [Popover] shows while
    [open={isOpen}]; inside it the line is there when
    [filteredCurrencies.length === 0]. *)
Definition noCurrencyFound (curriences : list string) (s : State) : bool :=
  isOpen s
  && Nat.eqb (List.length (filteredCurrencies curriences (searchQuery s))) 0.

(** The value of the hidden input submitted with the form. *)
Definition hiddenInputValue (s : State) : string := selectedCurrency s.

(** What the user can do. *)
Inductive Event : Type :=
| OpenChange (open : bool)
| SearchChange (text : string)
| RowClick (currency : string).

(** A row can be clicked only if it is rendered. *)
Definition possible (curriences : list string) (s : State) (e : Event) : bool :=
  match e with
  | RowClick currency =>
      includes (filteredCurrencies curriences (searchQuery s)) currency
  | _ => true
  end.

Definition handle (e : Event) (s : State) : State :=
  match e with
  | OpenChange open => setIsOpen open s
  | SearchChange text => setSearchQuery text s
  | RowClick currency => handleSelect currency s
  end.

(** The state after a sequence of events; [None] if one of them is a click
    on a row that is not there. *)
Fixpoint run (curriences : list string) (es : list Event) (s : State)
  : option State :=
  match es with
  | [] => Some s
  | e :: es' =>
      if possible curriences s e then run curriences es' (handle e s) else None
  end.

End WithToLowerCase.

End CurrencySelector.

(** * The import-users dialog: [ImportUsersDialog]

    Three [useState] cells, four handlers, and the choice between the two
    bodies of the dialog.  The calls to [fetcher.reset] and [navigate] are
    recorded in a log. *)

Module ImportUsersDialog.

(** The parts of a [File] the component reads. *)
Record File : Type := mkFile {
  name : string;
  type : string
}.

(** [fetcher.data]: [{ error?: { message?: string }; success?: boolean }] *)
Record FetcherData : Type := mkData {
  dataError : option value;
  success : value
}.

Inductive Effect : Type :=
| FetcherReset
| Navigate (path : string).

(** [isDialogOpen], [selectedFile] and [error], and the calls made so
    far, oldest first. *)
Record State : Type := mkState {
  isDialogOpen : bool;
  selectedFile : option File;
  error : string;
  effects : list Effect
}.

Definition init : State := mkState false None "" [].

Definition setIsDialogOpen (b : bool) (s : State) : State :=
  mkState b (selectedFile s) (error s) (effects s).

Definition setSelectedFile (f : option File) (s : State) : State :=
  mkState (isDialogOpen s) f (error s) (effects s).

Definition setError (msg : string) (s : State) : State :=
  mkState (isDialogOpen s) (selectedFile s) msg (effects s).

Definition perform (e : Effect) (s : State) : State :=
  mkState (isDialogOpen s) (selectedFile s) (error s) (effects s ++ [e]).

Definition openDialog (s : State) : State :=
  setIsDialogOpen true s.

Definition closeDialog (s : State) : State :=
  setIsDialogOpen false (perform FetcherReset s).

(** [files] is [event.target.files]: [None] when it is null, otherwise
    the list of chosen files. *)
Definition handleSelectFile (files : option (list File)) (s : State) : State :=
  let s := setError "" s in
  let file := match files with
              | None => None
              | Some fs => nth_error fs 0
              end in
  if match file with
     | None => true
     | Some f => negb (type f =? "text/csv")
     end
  then setError "Invalid file type. Please select a CSV file." s
  else setSelectedFile file s.

Definition goToInvites (s : State) : State :=
  closeDialog (perform (Navigate "/settings/team/invites") s).

Inductive Body : Type :=
| SuccessPanel
| UploadForm.

(** [fetcher.data?.success] *)
Definition dataSuccess (data : option FetcherData) : value :=
  match data with
  | None => Undefined
  | Some d => success d
  end.

(** [fetcher.data?.success || true ? ... : ...] *)
Definition body (data : option FetcherData) : Body :=
  if truthy (jsOr (dataSuccess data) (Bool true)) then SuccessPanel else UploadForm.

(** [disabled={!selectedFile || disabled}] on the "Import now" button;
    [disabled] is [isFormProcessing(fetcher.state)]. *)
Definition importDisabled (s : State) (disabled : bool) : bool :=
  match selectedFile s with
  | None => true
  | Some _ => disabled
  end.

Inductive Event : Type :=
| Open
| Close
| SelectFile (files : option (list File))
| ViewInvites.

Definition handle (e : Event) (s : State) : State :=
  match e with
  | Open => openDialog s
  | Close => closeDialog s
  | SelectFile files => handleSelectFile files s
  | ViewInvites => goToInvites s
  end.

(** The state after a sequence of events, first event first. *)
Definition run (es : list Event) (s : State) : State :=
  fold_left (fun s e => handle e s) es s.

End ImportUsersDialog.

(** * The general-settings route: [loader] and [action]

    Both functions await collaborators that are not part of this file
    (the permission check, the database, the form parser, the
    organization service).  What each of them returns or throws is given
    by an environment; the calls that change something
    ([updateOrganization], [sendNotification]) are recorded in a log, in
    the order they are made.  The session is read before the [try] block;
    [loader] and [action] take its user id as given, and
    [actionWithSession] adds the reading of the session to [action]. *)

Module SettingsGeneral.

(** What can be thrown inside the [try] blocks: a [ShelfError] built
    here, or whatever a collaborator throws. *)
#[warnings="-register-all"]
Inductive Thrown : Type :=
| ShelfError (message label : string) (cause : option Thrown)
             (additionalData : list (string * string))
| External (what : string).

Inductive outcome (E A : Type) : Type :=
| Returns (a : A)
| Throws (e : E).
Arguments Returns {E A} a.
Arguments Throws {E A} e.

Record Organization : Type := mkOrganization {
  id : string;
  name : string;
  currency : string;
  type : string;
  enabledSso : bool
}.

Record UserOrganization : Type := mkUserOrganization {
  organizationId : string;
  organization : Organization
}.

Record User : Type := mkUser {
  firstName : value;
  userOrganizations : list UserOrganization
}.

Record File : Type := mkFile {
  fileName : string
}.

(** The fields read from the parsed form. *)
Record Payload : Type := mkPayload {
  payloadName : string;
  payloadCurrency : string;
  payloadId : string;
  selfServiceGroupId : value;
  adminGroupId : value;
  baseUserGroupId : value
}.

Record SsoDetails : Type := mkSsoDetails {
  ssoSelfServiceGroupId : value;
  ssoAdminGroupId : value;
  ssoBaseUserGroupId : value
}.

(** The argument of [updateOrganization]. *)
Record UpdateArgs : Type := mkUpdateArgs {
  updId : string;
  updName : string;
  updImage : option File;
  updUserId : string;
  updCurrency : string;
  updSsoDetails : option SsoDetails
}.

Record Notification : Type := mkNotification {
  notificationTitle : string;
  notificationMessage : string;
  notificationIcon : string * string;
  senderId : string
}.

Inductive Effect : Type :=
| UpdateOrganization (args : UpdateArgs)
| SendNotification (n : Notification).

(** What [context.getSession()] returns, as far as it is read. *)
Record AuthSession : Type := mkAuthSession {
  userId : string
}.

(** [EditWorkspaceFormSchema(enabledSso, isPersonal)] *)
Record Schema : Type := EditWorkspaceFormSchema {
  schemaSso : bool;
  schemaPersonal : bool
}.

Section Route.

(** Values that are only passed on. *)
Variables Organizations TierLimit FormData : Type.

(** [makeShelfError(cause, { userId })] and the [status] of its result. *)
Variable Reason : Type.
Variable makeShelfError : Thrown -> string -> Reason.
Variable status : Reason -> nat.

Record LoaderData : Type := mkLoaderData {
  headerTitle : string;
  dataOrganization : Organization;
  dataCanExportAssets : bool;
  dataUser : User;
  curriences : list string;
  isPersonalWorkspace : bool
}.

(** [data(...)] and [error(...)] *)
Inductive Body : Type :=
| Data (d : LoaderData)
| Error (reason : Reason).

Inductive Response : Type :=
| Json (body : Body) (init : option nat)
| Redirect (url : string).

(** ** Running the [try] blocks: the log so far, and a result or a throw *)

Definition M (A : Type) : Type := list Effect -> outcome Thrown A * list Effect.

Definition ret {A : Type} (a : A) : M A := fun log => (Returns a, log).

Definition throw {A : Type} (t : Thrown) : M A := fun log => (Throws t, log).

Definition bindM {A B : Type} (m : M A) (k : A -> M B) : M B :=
  fun log =>
    match m log with
    | (Returns a, log') => k a log'
    | (Throws t, log') => (Throws t, log')
    end.

(** Awaiting a collaborator that changes nothing. *)
Definition await {A : Type} (r : outcome Thrown A) : M A := fun log => (r, log).

(** Awaiting a collaborator whose call is recorded. *)
Definition call {A : Type} (e : Effect) (r : outcome Thrown A) : M A :=
  fun log => (r, log ++ [e])%list.

(** [promise.catch((cause) => { throw f(cause) })] *)
Definition catchRethrow {A : Type} (r : outcome Thrown A) (f : Thrown -> Thrown)
  : outcome Thrown A :=
  match r with
  | Returns a => Returns a
  | Throws cause => Throws (f cause)
  end.

Notation "x <~ m ;; k" := (bindM m (fun x => k))
  (at level 61, m at next level, right associativity).

(** ** The loader *)

Record LoaderEnv : Type := mkLoaderEnv {
  loaderUserId : string;
  (** [requirePermission({ ..., action: PermissionAction.read })]:
      [organizationId] and [organizations] *)
  requirePermissionRead : outcome Thrown (string * Organizations);
  (** [db.user.findUniqueOrThrow(...)] *)
  findUniqueOrThrow : outcome Thrown User;
  getOrganizationTierLimit : string -> Organizations -> outcome Thrown TierLimit;
  canExportAssets : TierLimit -> bool;
  (** [Object.keys(Currency)] *)
  currencyKeys : list string
}.

Definition loaderTry (env : LoaderEnv) : M Response :=
  perm <~ await (requirePermissionRead env) ;;
  let organizationId_ := fst perm in
  let organizations := snd perm in
  user <~ await (catchRethrow (findUniqueOrThrow env)
                   (fun cause =>
                      ShelfError "User not found" "Settings" (Some cause)
                        [ ("userId", loaderUserId env);
                          ("organizationId", organizationId_) ])) ;;
  let currentOrganization :=
    find (fun userOrg => organizationId userOrg =? organizationId_)
         (userOrganizations user) in
  tierLimit <~ await (getOrganizationTierLimit env organizationId_ organizations) ;;
  match currentOrganization with
  | None =>
      throw (ShelfError "Organization not found" "Settings" None
               [ ("userId", loaderUserId env);
                 ("organizationId", organizationId_) ])
  | Some currentOrganization =>
      ret (Json (Data (mkLoaderData
                         "General"
                         (organization currentOrganization)
                         (canExportAssets env tierLimit)
                         user
                         (currencyKeys env)
                         (type (organization currentOrganization) =? "PERSONAL")))
                None)
  end.

(** The loader returns a response or throws one. *)
Definition loader (env : LoaderEnv) : outcome Response Response :=
  match loaderTry env [] with
  | (Returns r, _) => Returns r
  | (Throws cause, _) =>
      let reason := makeShelfError cause (loaderUserId env) in
      Throws (Json (Error reason) (Some (status reason)))
  end.

(** ** The action *)

Record ActionEnv : Type := mkActionEnv {
  actionUserId : string;
  (** [requirePermission({ ..., action: PermissionAction.update })]:
      [organizationId] and [currentOrganization] *)
  requirePermissionUpdate : outcome Thrown (string * Organization);
  (** [request.clone().formData()] *)
  formData : outcome Thrown FormData;
  parseData : FormData -> Schema -> outcome Thrown Payload;
  (** [unstable_parseMultipartFormData(...)] followed by [.get("image")] *)
  parseMultipartImage : outcome Thrown (option File);
  updateOrganization : UpdateArgs -> outcome Thrown unit;
  sendNotification : Notification -> outcome Thrown unit
}.

Definition workspaceUpdated (userId : string) : Notification :=
  mkNotification "Workspace updated"
                 "Your workspace  has been updated successfully"
                 ("success", "success")
                 userId.

Definition actionTry (env : ActionEnv) : M Response :=
  perm <~ await (requirePermissionUpdate env) ;;
  let currentOrganization := snd perm in
  fd <~ await (formData env) ;;
  let enabledSso_ := enabledSso currentOrganization in
  let schema := EditWorkspaceFormSchema enabledSso_
                  (type currentOrganization =? "PERSONAL") in
  payload <~ await (parseData env fd schema) ;;
  if negb (id currentOrganization =? payloadId payload)
  then throw (ShelfError "You are not allowed to edit this organization."
                "Organization" None [])
  else
    file <~ await (parseMultipartImage env) ;;
    let args := mkUpdateArgs
                  (payloadId payload)
                  (payloadName payload)
                  file
                  (actionUserId env)
                  (payloadCurrency payload)
                  (if enabledSso_
                   then Some (mkSsoDetails (selfServiceGroupId payload)
                                           (adminGroupId payload)
                                           (baseUserGroupId payload))
                   else None) in
    _ <~ call (UpdateOrganization args) (updateOrganization env args) ;;
    let notification := workspaceUpdated (actionUserId env) in
    _ <~ call (SendNotification notification) (sendNotification env notification) ;;
    ret (Redirect "/settings/general").

(** The action catches what is thrown and returns a response; the second
    component is the log of the calls it made. *)
Definition action (env : ActionEnv) : Response * list Effect :=
  match actionTry env [] with
  | (Returns r, log) => (r, log)
  | (Throws cause, log) =>
      let reason := makeShelfError cause (actionUserId env) in
      (Json (Error reason) (Some (status reason)), log)
  end.

(** The first two lines of [action], which run before the [try] block:
    [const authSession = context.getSession()] and
    [const { userId } = authSession].  [getSession] is what the call
    returns ([None] for [undefined] or [null]) or throws; destructuring a
    missing session throws a [TypeError]. *)
Definition sessionUserId (getSession : outcome Thrown (option AuthSession))
  : outcome Thrown string :=
  match getSession with
  | Throws t => Throws t
  | Returns None =>
      Throws (External "TypeError: Cannot destructure property 'userId'")
  | Returns (Some authSession) => Returns (userId authSession)
  end.

(** The collaborators of [env], for the user id read from the session. *)
Definition withUserId (userId : string) (env : ActionEnv) : ActionEnv :=
  mkActionEnv userId
              (requirePermissionUpdate env)
              (formData env)
              (parseData env)
              (parseMultipartImage env)
              (updateOrganization env)
              (sendNotification env).

(** The exported [action] from its first line: the session is read, and
    what that throws is thrown by the action; then the [try] block runs
    with the user id of the session. *)
Definition actionWithSession (getSession : outcome Thrown (option AuthSession))
  (env : ActionEnv) : outcome Thrown (Response * list Effect) :=
  match sessionUserId getSession with
  | Throws t => Throws t
  | Returns userId => Returns (action (withUserId userId env))
  end.

End Route.

Arguments withUserId {FormData} userId env.
Arguments actionWithSession {FormData Reason} makeShelfError status getSession env.
Arguments Data {Reason} d.
Arguments Error {Reason} reason.
Arguments Json {Reason} body init.
Arguments Redirect {Reason} url.
Arguments mkLoaderEnv {Organizations TierLimit}.
Arguments loaderUserId {Organizations TierLimit} l.
Arguments requirePermissionRead {Organizations TierLimit} l.
Arguments findUniqueOrThrow {Organizations TierLimit} l.
Arguments getOrganizationTierLimit {Organizations TierLimit} l.
Arguments canExportAssets {Organizations TierLimit} l.
Arguments currencyKeys {Organizations TierLimit} l.
Arguments mkActionEnv {FormData}.
Arguments actionUserId {FormData} a.
Arguments requirePermissionUpdate {FormData} a.
Arguments formData {FormData} a.
Arguments parseData {FormData} a.
Arguments parseMultipartImage {FormData} a.
Arguments updateOrganization {FormData} a.
Arguments sendNotification {FormData} a.
Arguments loaderTry {Organizations TierLimit Reason} env.
Arguments loader {Organizations TierLimit Reason} makeShelfError status env.
Arguments actionTry {FormData Reason} env.
Arguments action {FormData Reason} makeShelfError status env.

(** Environments to run the route on examples: a user of a team
    workspace "org-1", with the memberships given; a form that names the
    organization given. *)
Definition sampleOrganization (orgId orgType : string) : Organization :=
  mkOrganization orgId "Acme" "USD" orgType false.

Definition sampleLoaderEnv (memberships : list UserOrganization)
  : LoaderEnv unit unit :=
  mkLoaderEnv "user-1"
              (Returns ("org-1", tt))
              (Returns (mkUser (Str "Jo") memberships))
              (fun _ _ => Returns tt)
              (fun _ => true)
              [ "USD"; "EUR" ].

Definition samplePayload (formId : string) : Payload :=
  mkPayload "Acme Ltd" "EUR" formId Undefined Undefined Undefined.

Definition sampleActionEnv (formId : string) : ActionEnv unit :=
  mkActionEnv "user-1"
              (Returns ("org-1", sampleOrganization "org-1" "TEAM"))
              (Returns tt)
              (fun _ _ => Returns (samplePayload formId))
              (Returns None)
              (fun _ => Returns tt)
              (fun _ => Returns tt).

End SettingsGeneral.

(** * Properties *)

(** ** The template literal never throws *)

Lemma assetLabelsTo_ok (user : option UserData) :
  assetLabelsTo user = Ok (assetLabelsUrl user).
Proof.
  unfold assetLabelsTo, assetLabelsUrl, nameSegment.
  destruct user as [u|]; simpl; [|reflexivity].
  destruct (truthy (firstName u)), (truthy (lastName u)); reflexivity.
Qed.

Lemma menuItemsBottom_literal_ok (user : option UserData) :
  menuItemsBottom_literal user
  = Ok [ assetLabelsItem (assetLabelsUrl user); scannerItem; settingsItem ].
Proof.
  unfold menuItemsBottom_literal. now rewrite assetLabelsTo_ok.
Qed.

Lemma useMainMenuItems_ok (user : option UserData) (role : value) :
  useMainMenuItems user role
  = Ok (roleFilter role
          (mkMenu menuItemsTop_literal
                  [ assetLabelsItem (assetLabelsUrl user); scannerItem; settingsItem ])).
Proof.
  unfold useMainMenuItems. now rewrite menuItemsBottom_literal_ok.
Qed.

(** ** [includes] and [removeItems] *)

Lemma includes_In (arr : list string) (x : string) :
  includes arr x = true <-> In x arr.
Proof.
  induction arr as [|y arr IH]; simpl.
  - split; [discriminate | tauto].
  - destruct (String.eqb_spec y x) as [->|Hne].
    + split; auto.
    + rewrite IH. split; [auto | intros [H|H]; [contradiction | exact H]].
Qed.

Lemma includes_false (arr : list string) (x : string) :
  includes arr x = false <-> ~ In x arr.
Proof.
  rewrite <- includes_In. destruct (includes arr x); split; congruence.
Qed.

Lemma removeItems_cons_in (remove : list string) (e : MenuItem) (l : list MenuItem) :
  In (to e) remove -> removeItems remove (e :: l) = removeItems remove l.
Proof.
  intros H. apply includes_In in H. unfold removeItems. simpl. now rewrite H.
Qed.

Lemma removeItems_cons_out (remove : list string) (e : MenuItem) (l : list MenuItem) :
  ~ In (to e) remove -> removeItems remove (e :: l) = e :: removeItems remove l.
Proof.
  intros H. apply includes_false in H. unfold removeItems. simpl. now rewrite H.
Qed.

Lemma removeItems_In (remove : list string) (l : list MenuItem) (e : MenuItem) :
  In e (removeItems remove l) <-> In e l /\ ~ In (to e) remove.
Proof.
  unfold removeItems. rewrite filter_In, negb_true_iff, includes_false. tauto.
Qed.

Lemma removeItems_app (remove : list string) (l1 l2 : list MenuItem) :
  removeItems remove (l1 ++ l2) = (removeItems remove l1 ++ removeItems remove l2)%list.
Proof. apply filter_app. Qed.

Lemma removeItems_noop (remove : list string) (l : list MenuItem) :
  (forall e, In e l -> ~ In (to e) remove) -> removeItems remove l = l.
Proof.
  induction l as [|e l IH]; intros H; [reflexivity|].
  rewrite removeItems_cons_out by (apply H; now left).
  f_equal. apply IH. intros e' He'. apply H. now right.
Qed.

Lemma removeItems_idem (remove : list string) (l : list MenuItem) :
  removeItems remove (removeItems remove l) = removeItems remove l.
Proof.
  apply removeItems_noop. intros e He. now apply removeItems_In in He.
Qed.

Lemma removeItems_keys_app (r1 r2 : list string) (l : list MenuItem) :
  removeItems (r1 ++ r2) l = removeItems r1 (removeItems r2 l).
Proof.
  induction l as [|e l IH]; [reflexivity|].
  destruct (in_dec string_dec (to e) r2) as [H2|H2].
  - rewrite (removeItems_cons_in r2) by exact H2.
    rewrite removeItems_cons_in by (apply in_or_app; now right). exact IH.
  - rewrite (removeItems_cons_out r2) by exact H2.
    destruct (in_dec string_dec (to e) r1) as [H1|H1].
    + rewrite (removeItems_cons_in r1) by exact H1.
      rewrite removeItems_cons_in by (apply in_or_app; now left). exact IH.
    + rewrite (removeItems_cons_out r1) by exact H1.
      rewrite removeItems_cons_out; [now rewrite IH|].
      intros H. apply in_app_or in H. tauto.
Qed.

Lemma removeItems_dangling (r1 r2 : list string) (k : string) (l : list MenuItem) :
  (forall e, In e l -> to e <> k) ->
  removeItems (r1 ++ k :: r2) l = removeItems (r1 ++ r2) l.
Proof.
  intros Hk.
  change (k :: r2) with ([k] ++ r2)%list.
  rewrite !removeItems_keys_app. f_equal.
  assert (Hin : forall e, In e (removeItems r2 l) -> ~ In (to e) [k]).
  { intros e He [H|[]]. apply removeItems_In in He. apply (Hk e); [tauto | now symmetry]. }
  now rewrite (removeItems_noop [k]).
Qed.

Lemma removeItems_precedes (remove : list string) (l : list MenuItem) (a b : MenuItem) :
  ~ In (to a) remove -> ~ In (to b) remove ->
  precedes a b l -> precedes a b (removeItems remove l).
Proof.
  intros Ha Hb (l1 & l2 & l3 & ->).
  exists (removeItems remove l1), (removeItems remove l2), (removeItems remove l3).
  rewrite removeItems_app, (removeItems_cons_out _ a) by exact Ha.
  rewrite removeItems_app, (removeItems_cons_out _ b) by exact Hb.
  reflexivity.
Qed.

(** The templated URL is never one of the removed keys. *)
Lemma assetLabelsUrl_kept (user : option UserData) :
  includes itemsToRemove (assetLabelsUrl user) = false.
Proof. reflexivity. Qed.

Lemma roleFilter_self_service (user : option UserData) (role : value) :
  truthy role = true ->
  roleFilter role
    (mkMenu menuItemsTop_literal
            [ assetLabelsItem (assetLabelsUrl user); scannerItem; settingsItem ])
  = mkMenu [ plainItem "asset" "assets" "Assets";
             plainItem "kit" "kits" "Kits";
             plainItem "calendar" "calendar" "Calendar";
             plainItem "bookings" "bookings" "Bookings" ]
           [ assetLabelsItem (assetLabelsUrl user); scannerItem ].
Proof.
  intros H. unfold roleFilter. rewrite H. reflexivity.
Qed.

Lemma useMainMenuItems_head (user : option UserData) (role : value) :
  exists r, useMainMenuItems user role = Ok r
            /\ hd_error (menuItemsBottom r) = Some (assetLabelsItem (assetLabelsUrl user)).
Proof.
  rewrite useMainMenuItems_ok. eexists; split; [reflexivity|].
  unfold roleFilter. destruct (truthy role); reflexivity.
Qed.

Lemma unrestricted_is_catalog_aux (user : option UserData) (role : value) :
  truthy role = false ->
  exists bottom,
    menuItemsBottom_literal user = Ok bottom
    /\ useMainMenuItems user role = Ok (mkMenu menuItemsTop_literal bottom).
Proof.
  intros H. rewrite useMainMenuItems_ok, menuItemsBottom_literal_ok.
  eexists; split; [reflexivity|]. unfold roleFilter. now rewrite H.
Qed.

(** ** Occurrences of a substring *)

Lemma prefix_app (n h : string) :
  prefix n h = true <-> exists s, h = n ++ s.
Proof.
  revert h. induction n as [|c n IH]; intros [|d h]; simpl.
  - split; [intros _; now exists "" | auto].
  - split; [intros _; now exists (String d h) | auto].
  - split; [discriminate | intros [s Hs]; discriminate].
  - destruct (ascii_dec c d) as [->|Hne].
    + rewrite IH. split; intros [s Hs]; exists s; congruence.
    + split; [discriminate | intros [s Hs]; congruence].
Qed.

Lemma contains_spec (n h : string) :
  contains n h = true <-> exists p s, h = p ++ n ++ s.
Proof.
  unfold contains. induction h as [|d h IH].
  - cbn [indexOf]. destruct (prefix n "") eqn:Hp.
    + apply prefix_app in Hp. destruct Hp as [s Hs].
      split; [intros _; exists "", s; exact Hs | intros _; reflexivity].
    + split; [discriminate|]. intros (p & s & Hs).
      destruct p; [|discriminate]. simpl in Hs.
      assert (prefix n "" = true) by (apply prefix_app; now exists s). congruence.
  - cbn [indexOf]. destruct (prefix n (String d h)) eqn:Hp.
    + apply prefix_app in Hp. destruct Hp as [s Hs].
      split; [intros _; exists "", s; exact Hs | intros _; reflexivity].
    + destruct (indexOf n h) as [i|]; simpl.
      * split; [intros _ | intros _; reflexivity].
        destruct IH as [IH _]. destruct (IH eq_refl) as (p & s & ->).
        now exists (String d p), s.
      * split; [discriminate|]. intros (p & s & Hs).
        destruct p as [|d' p]; simpl in Hs.
        -- assert (prefix n (String d h) = true) by (apply prefix_app; now exists s).
           congruence.
        -- injection Hs as _ ->. destruct IH as [_ IH].
           assert (false = true) by (apply IH; now exists p, s). discriminate.
Qed.

Lemma lacks_app (c : ascii) (a b : string) :
  lacks c (a ++ b) = lacks c a && lacks c b.
Proof.
  induction a as [|d a IH]; simpl; [reflexivity|].
  now rewrite IH, andb_assoc.
Qed.

(** An occurrence of a string starting with [c] cannot start inside a
    part that has no [c]. *)
Lemma contains_skip (c : ascii) (n a b : string) :
  lacks c a = true ->
  contains (String c n) (a ++ b) = contains (String c n) b.
Proof.
  unfold contains. induction a as [|d a IH]; intros Ha; [reflexivity|].
  simpl in Ha. apply andb_prop in Ha. destruct Ha as [Hcd Ha].
  specialize (IH Ha).
  change (String d a ++ b) with (String d (a ++ b)). cbn [indexOf prefix].
  destruct (ascii_dec c d) as [->|_].
  - rewrite Ascii.eqb_refl in Hcd. discriminate.
  - destruct (indexOf (String c n) (a ++ b)), (indexOf (String c n) b);
      simpl; congruence.
Qed.

Lemma contains_lacks (c : ascii) (n s : string) :
  lacks c s = true -> contains (String c n) s = false.
Proof.
  intros H. induction s as [|d s IH]; [reflexivity|].
  change (String d s) with (String d "" ++ s).
  simpl in H. apply andb_prop in H. destruct H as [Hd Hs].
  rewrite contains_skip; [auto|]. simpl. now rewrite Hd.
Qed.

Lemma contains_cons_noprefix (n : string) (d : ascii) (h : string) :
  prefix n (String d h) = false -> contains n (String d h) = contains n h.
Proof.
  intros H. unfold contains. cbn [indexOf]. rewrite H.
  now destruct (indexOf n h).
Qed.

Lemma append_assoc (a b c : string) : (a ++ b) ++ c = a ++ b ++ c.
Proof.
  induction a as [|d a IH]; simpl; [reflexivity | now rewrite IH].
Qed.

Lemma append_empty_r (a : string) : a ++ "" = a.
Proof.
  induction a as [|d a IH]; simpl; [reflexivity | now rewrite IH].
Qed.

(** An occurrence of a parameter name in the asset-labels URL lies after
    the base and an email free of [&]. *)
Lemma contains_after_base (n e seg : string) :
  lacks "&" e = true ->
  contains (String "&" n) (orderTagsBase ++ e ++ seg) = contains (String "&" n) seg.
Proof.
  intros He. rewrite <- append_assoc. apply contains_skip.
  rewrite lacks_app, He. reflexivity.
Qed.

(** * The claims *)

(** C1. For a self-service user with a full profile (email, firstName and
    lastName all present) the hook returns; [menuItemsTop] holds exactly
    the entries with keys "assets", "kits", "calendar", "bookings", in
    that order; [menuItemsBottom] holds the asset-labels and QR-scanner
    entries and no entry with key "settings". *)
Theorem self_service_full_profile (e f l : string) (role : value) :
  truthy role = true ->
  exists r,
    useMainMenuItems (fullProfile e f l) role = Ok r
    /\ map to (menuItemsTop r) = [ "assets"; "kits"; "calendar"; "bookings" ]
    /\ menuItemsTop r = removeItems
                          [ "dashboard"; "categories"; "tags"; "locations" ]
                          menuItemsTop_literal
    /\ menuItemsBottom r
       = [ assetLabelsItem (assetLabelsUrl (fullProfile e f l)); scannerItem ]
    /\ map title (menuItemsBottom r) = [ "Asset labels"; "QR scanner" ]
    /\ ~ In "settings" (map to (menuItemsBottom r)).
Proof.
  intros H. rewrite useMainMenuItems_ok, (roleFilter_self_service _ _ H).
  eexists; split; [reflexivity|]. cbn [menuItemsTop menuItemsBottom].
  repeat split.
  cbn [map to assetLabelsItem scannerItem].
  intros [Hin|[Hin|[]]]; [|discriminate].
  assert (Hk : includes itemsToRemove (assetLabelsUrl (fullProfile e f l)) = false)
    by apply assetLabelsUrl_kept.
  rewrite Hin in Hk. discriminate.
Qed.

Lemma self_service_full_profile_witness :
  exists r,
    useMainMenuItems (fullProfile "a@b.com" "Jo" "Doe") (Bool true) = Ok r
    /\ map to (menuItemsTop r) = [ "assets"; "kits"; "calendar"; "bookings" ]
    /\ menuItemsTop r = removeItems
                          [ "dashboard"; "categories"; "tags"; "locations" ]
                          menuItemsTop_literal
    /\ menuItemsBottom r
       = [ assetLabelsItem (assetLabelsUrl (fullProfile "a@b.com" "Jo" "Doe"));
           scannerItem ]
    /\ map title (menuItemsBottom r) = [ "Asset labels"; "QR scanner" ]
    /\ ~ In "settings" (map to (menuItemsBottom r)).
Proof.
  apply (self_service_full_profile "a@b.com" "Jo" "Doe" (Bool true)). reflexivity.
Defined.

(** C2. With the user missing the hook returns and the asset-labels target
    has only the email segment, with no firstName or lastName parameter;
    the value of that segment is the text [undefined], not the empty
    string. *)
Theorem absent_user_target (role : value) :
  exists r,
    useMainMenuItems None role = Ok r
    /\ hd_error (menuItemsBottom r)
       = Some (assetLabelsItem "https://www.shelf.nu/order-tags?email=undefined")
    /\ "https://www.shelf.nu/order-tags?email=undefined"
       <> "https://www.shelf.nu/order-tags?email="
    /\ contains "firstName=" "https://www.shelf.nu/order-tags?email=undefined" = false
    /\ contains "lastName=" "https://www.shelf.nu/order-tags?email=undefined" = false.
Proof.
  destruct (useMainMenuItems_head None role) as (r & Hr & Hhd).
  exists r. repeat split; try assumption. discriminate.
Qed.

(** C3. When the role is not self-service, both returned sequences are the
    literals as built: same entries, same order. *)
Theorem unrestricted_is_catalog (user : option UserData) (role : value) :
  truthy role = false ->
  exists bottom,
    menuItemsBottom_literal user = Ok bottom
    /\ useMainMenuItems user role = Ok (mkMenu menuItemsTop_literal bottom).
Proof.
  intros H. rewrite menuItemsBottom_literal_ok.
  eexists; split; [reflexivity|].
  unfold useMainMenuItems. rewrite menuItemsBottom_literal_ok. cbn [bind].
  unfold roleFilter. now rewrite H.
Qed.

Lemma unrestricted_is_catalog_witness :
  exists bottom,
    menuItemsBottom_literal (fullProfile "a@b.com" "Jo" "Doe") = Ok bottom
    /\ useMainMenuItems (fullProfile "a@b.com" "Jo" "Doe") (Bool false)
       = Ok (mkMenu menuItemsTop_literal bottom).
Proof.
  apply (unrestricted_is_catalog (fullProfile "a@b.com" "Jo" "Doe") (Bool false)).
  reflexivity.
Defined.

(** C4. When the role is self-service, the hook returns and no entry of
    either sequence has its [to] among "dashboard", "categories", "tags",
    "locations", "settings". *)
Theorem self_service_excludes (user : option UserData) (role : value) :
  truthy role = true ->
  exists r,
    useMainMenuItems user role = Ok r
    /\ forall e, In e (menuItemsTop r) \/ In e (menuItemsBottom r) ->
                 ~ In (to e) [ "dashboard"; "categories"; "tags"; "locations"; "settings" ].
Proof.
  intros H. rewrite useMainMenuItems_ok. eexists; split; [reflexivity|].
  unfold roleFilter. rewrite H. cbn [menuItemsTop menuItemsBottom].
  intros e [He|He]; apply removeItems_In in He; apply He.
Qed.

Lemma self_service_excludes_witness :
  exists r,
    useMainMenuItems None (Bool true) = Ok r
    /\ forall e, In e (menuItemsTop r) \/ In e (menuItemsBottom r) ->
                 ~ In (to e) [ "dashboard"; "categories"; "tags"; "locations"; "settings" ].
Proof.
  apply (self_service_excludes None (Bool true)). reflexivity.
Defined.


(** C6. Order preservation.  For every user and role the hook returns,
    and two entries that are both in an output sequence and of which the
    first precedes the second in the literal precede each other in the
    same way in that output sequence. *)
Theorem order_preservation (user : option UserData) (role : value) :
  exists bottom r,
    menuItemsBottom_literal user = Ok bottom
    /\ useMainMenuItems user role = Ok r
    /\ (forall a b, In a (menuItemsTop r) -> In b (menuItemsTop r) ->
                    precedes a b menuItemsTop_literal ->
                    precedes a b (menuItemsTop r))
    /\ (forall a b, In a (menuItemsBottom r) -> In b (menuItemsBottom r) ->
                    precedes a b bottom ->
                    precedes a b (menuItemsBottom r)).
Proof.
  rewrite useMainMenuItems_ok, menuItemsBottom_literal_ok.
  do 2 eexists. split; [reflexivity|]. split; [reflexivity|].
  unfold roleFilter. destruct (truthy role); cbn [menuItemsTop menuItemsBottom].
  - split; intros a b Ha Hb Hab;
      apply removeItems_In in Ha; apply removeItems_In in Hb;
      apply removeItems_precedes; tauto.
  - split; intros a b _ _ Hab; exact Hab.
Qed.

(** An instance: "assets" still comes before "bookings" for a
    self-service user. *)
Lemma order_preservation_witness :
  precedes (plainItem "asset" "assets" "Assets")
           (plainItem "bookings" "bookings" "Bookings")
           (removeItems itemsToRemove menuItemsTop_literal).
Proof.
  destruct (order_preservation None (Bool true)) as (bottom & r & _ & Hr & Htop & _).
  rewrite useMainMenuItems_ok in Hr. injection Hr as <-.
  apply Htop.
  - cbn. auto.
  - cbn. auto 6.
  - exists [ plainItem "graph" "dashboard" "Dashboard" ],
           [ plainItem "kit" "kits" "Kits";
             plainItem "category" "categories" "Categories";
             plainItem "tag" "tags" "Tags";
             plainItem "location" "locations" "Locations";
             plainItem "calendar" "calendar" "Calendar" ],
           [].
    reflexivity.
Defined.

(** C7. Filtering is by exact key equality, per sequence, and a key that
    matches no entry of a sequence changes nothing.  [removeItems] drops
    an entry exactly when its [to] is one of the keys and keeps every other
    entry in place; a key with no matching entry can be dropped from the
    key list; "settings" does nothing to the top literal and "dashboard"
    nothing to the bottom one; keys that only extend or shorten an excluded
    key are kept; each output sequence of the filter block depends on
    its own input sequence only; for a truthy role the filter block
    returns each sequence with exactly the entries whose [to] is one of
    the five keys removed, and for any other role it returns both
    sequences as they are; and so does the hook with its two literals. *)
Theorem filtering_exact_per_sequence :
  (forall remove, removeItems remove [] = [])
  /\ (forall remove e l, In (to e) remove ->
                         removeItems remove (e :: l) = removeItems remove l)
  /\ (forall remove e l, ~ In (to e) remove ->
                         removeItems remove (e :: l) = e :: removeItems remove l)
  /\ (forall r1 r2 k l, (forall e, In e l -> to e <> k) ->
                        removeItems (r1 ++ k :: r2) l = removeItems (r1 ++ r2) l)
  /\ removeItems [ "settings" ] menuItemsTop_literal = menuItemsTop_literal
  /\ removeItems itemsToRemove menuItemsTop_literal
     = removeItems [ "dashboard"; "categories"; "tags"; "locations" ] menuItemsTop_literal
  /\ (forall user, exists bottom,
         menuItemsBottom_literal user = Ok bottom
         /\ removeItems [ "dashboard" ] bottom = bottom
         /\ removeItems itemsToRemove bottom = removeItems [ "settings" ] bottom)
  /\ removeItems itemsToRemove
       [ plainItem "x" "setting" "A"; plainItem "x" "settings/general" "B";
         plainItem "x" "tag" "C"; plainItem "x" "my-tags" "D";
         plainItem "x" "Dashboard" "E"; settingsItem ]
     = [ plainItem "x" "setting" "A"; plainItem "x" "settings/general" "B";
         plainItem "x" "tag" "C"; plainItem "x" "my-tags" "D";
         plainItem "x" "Dashboard" "E" ]
  /\ (forall role top bottom bottom',
         menuItemsTop (roleFilter role (mkMenu top bottom))
         = menuItemsTop (roleFilter role (mkMenu top bottom')))
  /\ (forall role top top' bottom,
         menuItemsBottom (roleFilter role (mkMenu top bottom))
         = menuItemsBottom (roleFilter role (mkMenu top' bottom)))
  /\ (forall role m,
         truthy role = true ->
         roleFilter role m
         = mkMenu (removeItems itemsToRemove (menuItemsTop m))
                  (removeItems itemsToRemove (menuItemsBottom m)))
  /\ (forall role m, truthy role = false -> roleFilter role m = m)
  /\ (forall role m e,
         truthy role = true ->
         (In e (menuItemsTop (roleFilter role m))
          <-> In e (menuItemsTop m)
              /\ ~ In (to e)
                    [ "dashboard"; "categories"; "tags"; "locations"; "settings" ])
         /\ (In e (menuItemsBottom (roleFilter role m))
             <-> In e (menuItemsBottom m)
                 /\ ~ In (to e)
                       [ "dashboard"; "categories"; "tags"; "locations"; "settings" ]))
  /\ (forall user role,
         truthy role = true ->
         exists bottom,
           menuItemsBottom_literal user = Ok bottom
           /\ useMainMenuItems user role
              = Ok (mkMenu (removeItems itemsToRemove menuItemsTop_literal)
                           (removeItems itemsToRemove bottom))).
Proof.
  split; [reflexivity|].
  split; [exact removeItems_cons_in|].
  split; [exact removeItems_cons_out|].
  split; [exact removeItems_dangling|].
  split; [reflexivity|].
  split; [reflexivity|].
  split.
  { intros user. rewrite menuItemsBottom_literal_ok.
    eexists; split; [reflexivity|]. split; reflexivity. }
  split; [reflexivity|].
  split.
  { intros role top bottom bottom'. unfold roleFilter.
    destruct (truthy role); reflexivity. }
  split.
  { intros role top top' bottom. unfold roleFilter.
    destruct (truthy role); reflexivity. }
  split.
  { intros role m H. unfold roleFilter. now rewrite H. }
  split.
  { intros role m H. unfold roleFilter. now rewrite H. }
  split.
  { intros role m e H. unfold roleFilter. rewrite H.
    cbn [menuItemsTop menuItemsBottom]. split; apply removeItems_In. }
  intros user role H. rewrite useMainMenuItems_ok, menuItemsBottom_literal_ok.
  eexists; split; [reflexivity|]. unfold roleFilter. now rewrite H.
Qed.

(** An instance: "settings" matches nothing in the top literal, so the
    five keys act on it as the other four do. *)
Lemma filtering_exact_per_sequence_witness :
  removeItems ([ "dashboard"; "categories"; "tags"; "locations" ] ++ "settings" :: [])
              menuItemsTop_literal
  = removeItems ([ "dashboard"; "categories"; "tags"; "locations" ] ++ [])
                menuItemsTop_literal.
Proof.
  destruct filtering_exact_per_sequence as (_ & _ & _ & Hdangling & _).
  apply Hdangling.
  intros e He. cbn in He.
  repeat (destruct He as [<-|He]; [discriminate|]). destruct He.
Defined.

(** C8. Idempotence.  For every user and role the hook returns a result
    that the filter block leaves unchanged; more generally the filter
    block applied twice equals the filter block applied once. *)
Theorem role_filter_idempotent (user : option UserData) (role : value) :
  (exists r, useMainMenuItems user role = Ok r /\ roleFilter role r = r)
  /\ (forall m, roleFilter role (roleFilter role m) = roleFilter role m).
Proof.
  assert (Hidem : forall m, roleFilter role (roleFilter role m) = roleFilter role m).
  { intros m. unfold roleFilter. destruct (truthy role); [|reflexivity].
    cbn [menuItemsTop menuItemsBottom]. now rewrite !removeItems_idem. }
  split; [|exact Hidem].
  rewrite useMainMenuItems_ok. eexists; split; [reflexivity|]. apply Hidem.
Qed.

(** C9. Totality holds, but a missing email is not treated as absent
    data.  For a present user without an email and with firstName "Jo"
    the hook returns for every role value and does not throw; the
    target of the asset-labels entry carries the text [undefined] as the
    value of the email parameter, where the name placeholders of the same
    literal print nothing for a missing field. *)
Theorem missing_email_is_printed (role : value) :
  exists r,
    useMainMenuItems (Some (mkUser Undefined (Str "Jo") Undefined)) role = Ok r
    /\ hd_error (menuItemsBottom r)
       = Some (assetLabelsItem
                 "https://www.shelf.nu/order-tags?email=undefined&firstName=Jo")
    /\ contains "email=undefined"
         "https://www.shelf.nu/order-tags?email=undefined&firstName=Jo" = true
    /\ contains "lastName="
         "https://www.shelf.nu/order-tags?email=undefined&firstName=Jo" = false.
Proof.
  destruct (useMainMenuItems_head
              (Some (mkUser Undefined (Str "Jo") Undefined)) role)
    as (r & Hr & Hhd).
  exists r. split; [exact Hr|]. split; [exact Hhd|]. split; reflexivity.
Qed.

(** C10, as amended.  An empty-string name field is falsy and
    contributes no parameter, exactly like a missing one.  With firstName
    equal to the empty string the hook returns what it returns with
    firstName missing, and the target is the base, the email and the
    lastName segment only; if moreover the email and the lastName contain
    no [&] (the code copies them unencoded), no [&firstName=] occurs in
    the target; likewise for lastName. *)
Theorem empty_name_is_omitted (e : string) (other role : value) :
  (useMainMenuItems (Some (mkUser (Str e) (Str "") other)) role
   = useMainMenuItems (Some (mkUser (Str e) Undefined other)) role
   /\ assetLabelsTo (Some (mkUser (Str e) (Str "") other))
      = Ok (orderTagsBase ++ e ++ nameSegment "lastName" other)
   /\ (lacks "&" e = true -> lacks "&" (toString other) = true ->
       contains "&firstName=" (orderTagsBase ++ e ++ nameSegment "lastName" other)
       = false))
  /\ (useMainMenuItems (Some (mkUser (Str e) other (Str ""))) role
      = useMainMenuItems (Some (mkUser (Str e) other Undefined)) role
      /\ assetLabelsTo (Some (mkUser (Str e) other (Str "")))
         = Ok (orderTagsBase ++ e ++ nameSegment "firstName" other)
      /\ (lacks "&" e = true -> lacks "&" (toString other) = true ->
          contains "&lastName=" (orderTagsBase ++ e ++ nameSegment "firstName" other)
          = false)).
Proof.
  split.
  - split; [reflexivity|]. split.
    + rewrite assetLabelsTo_ok. reflexivity.
    + intros He Ho. rewrite contains_after_base by exact He.
      unfold nameSegment. destruct (truthy other); [|reflexivity].
      cbn [append]. rewrite contains_cons_noprefix by reflexivity.
      change (contains "&firstName=" ("lastName=" ++ toString other) = false).
      rewrite contains_skip by reflexivity.
      now apply contains_lacks.
  - split; [|split].
    + rewrite !useMainMenuItems_ok. unfold assetLabelsUrl, nameSegment. cbn.
      now rewrite !append_empty_r.
    + rewrite assetLabelsTo_ok. unfold assetLabelsUrl, nameSegment. cbn.
      now rewrite !append_empty_r.
    + intros He Ho. rewrite contains_after_base by exact He.
      unfold nameSegment. destruct (truthy other); [|reflexivity].
      cbn [append]. rewrite contains_cons_noprefix by reflexivity.
      change (contains "&lastName=" ("firstName=" ++ toString other) = false).
      rewrite contains_skip by reflexivity.
      now apply contains_lacks.
Qed.

Lemma empty_name_is_omitted_witness :
  contains "&firstName="
    (orderTagsBase ++ "a@b.com" ++ nameSegment "lastName" (Str "Doe")) = false
  /\ contains "&lastName="
       (orderTagsBase ++ "a@b.com" ++ nameSegment "firstName" (Str "Jo")) = false.
Proof.
  split.
  - apply (empty_name_is_omitted "a@b.com" (Str "Doe") (Bool false)); reflexivity.
  - apply (empty_name_is_omitted "a@b.com" (Str "Jo") (Bool false)); reflexivity.
Defined.

(** Without that condition the target can contain [&firstName=] although
    firstName is the empty string: the text comes from the email. *)
Lemma empty_name_counterexample :
  exists r,
    useMainMenuItems (Some (mkUser (Str "x&firstName=y@b.com") (Str "") Undefined))
                     (Bool false) = Ok r
    /\ hd_error (menuItemsBottom r)
       = Some (assetLabelsItem
                 "https://www.shelf.nu/order-tags?email=x&firstName=y@b.com")
    /\ contains "&firstName="
         "https://www.shelf.nu/order-tags?email=x&firstName=y@b.com" = true.
Proof.
  eexists. split; [reflexivity|]. split; reflexivity.
Qed.

(** * Further properties: the currency selector *)

Lemma contains_refl (s : string) : contains s s = true.
Proof.
  apply contains_spec. exists "", "". simpl. now rewrite append_empty_r.
Qed.

Lemma contains_trans (a b c : string) :
  contains a b = true -> contains b c = true -> contains a c = true.
Proof.
  intros Hab Hbc.
  apply contains_spec in Hab. destruct Hab as (p & s & ->).
  apply contains_spec in Hbc. destruct Hbc as (p' & s' & ->).
  apply contains_spec. exists (p' ++ p), (s ++ s').
  now rewrite !append_assoc.
Qed.

(** Splitting a filtered list at an element splits the list it came
    from. *)
Lemma filter_split {A : Type} (f : A -> bool) (l : list A) (a : A) (l1' r' : list A) :
  filter f l = (l1' ++ a :: r')%list ->
  exists l1 r, l = (l1 ++ a :: r)%list /\ filter f l1 = l1' /\ filter f r = r'.
Proof.
  revert l1'. induction l as [|x l IH]; intros l1' H; simpl in H.
  - destruct l1'; discriminate.
  - destruct (f x) eqn:Hx.
    + destruct l1' as [|y l1']; simpl in H.
      * injection H as -> Hr. exists [], l. simpl. auto.
      * injection H as -> Hr. destruct (IH _ Hr) as (l1 & r & -> & H1 & H2).
        exists (y :: l1), r. simpl. rewrite Hx, H1. auto.
    + destruct (IH _ H) as (l1 & r & -> & H1 & H2).
      exists (x :: l1), r. simpl. rewrite Hx. auto.
Qed.

Lemma filter_precedes_inv {A : Type} (f : A -> bool) (l : list A) (a b : A) :
  precedes a b (filter f l) -> precedes a b l.
Proof.
  intros (l1' & l2' & l3' & H).
  apply filter_split in H. destruct H as (l1 & r & -> & _ & Hr).
  apply filter_split in Hr. destruct Hr as (l2 & l3 & -> & _ & _).
  now exists l1, l2, l3.
Qed.

Lemma filter_eqb_NoDup (c : string) (l : list string) :
  NoDup l -> In c l -> filter (fun x => c =? x) l = [c].
Proof.
  induction 1 as [|x l Hx Hl IH]; intros Hin; [destruct Hin|].
  simpl. destruct (String.eqb_spec c x) as [->|Hne].
  - f_equal. clear IH Hin. induction l as [|y l IHl]; [reflexivity|].
    simpl. destruct (String.eqb_spec x y) as [->|_].
    + exfalso. apply Hx. now left.
    + apply IHl.
      * intros H. apply Hx. now right.
      * now inversion Hl.
  - destruct Hin as [->|Hin]; [contradiction|]. now apply IH.
Qed.

Section CurrencySelectorFacts.

Variable toLowerCase : string -> string.

Lemma currency_filter_keeps_order_aux (curriences : list string) (q : string) :
  NoDup curriences -> NoDup (CurrencySelector.filteredCurrencies toLowerCase curriences q).
Proof.
  unfold CurrencySelector.filteredCurrencies.
  destruct (q =? ""); [auto | apply NoDup_filter].
Qed.

(** X1. With a non-empty search text the list shown holds exactly the
    currencies whose lower-cased code has the lower-cased text as a
    substring; with an empty text it is the whole list. *)
Theorem currency_filter_matches (curriences : list string) (q c : string) :
  q <> "" ->
  CurrencySelector.filteredCurrencies toLowerCase curriences "" = curriences
  /\ (In c (CurrencySelector.filteredCurrencies toLowerCase curriences q)
      <-> In c curriences /\ exists p s, toLowerCase c = p ++ toLowerCase q ++ s).
Proof.
  intros Hq. split; [reflexivity|].
  unfold CurrencySelector.filteredCurrencies.
  destruct (String.eqb_spec q "") as [->|_]; [contradiction|].
  rewrite filter_In, contains_spec. reflexivity.
Qed.

(** X2. Narrowing.  If the lower-cased new text contains the lower-cased
    old one, every currency shown for the new text was shown for the old
    one. *)
Theorem currency_search_narrows (curriences : list string) (q1 q2 : string) :
  q2 <> "" ->
  contains (toLowerCase q1) (toLowerCase q2) = true ->
  incl (CurrencySelector.filteredCurrencies toLowerCase curriences q2) (CurrencySelector.filteredCurrencies toLowerCase curriences q1).
Proof.
  intros Hq2 H12 c Hc.
  unfold CurrencySelector.filteredCurrencies in *.
  destruct (String.eqb_spec q2 "") as [->|_]; [contradiction|].
  apply filter_In in Hc. destruct Hc as [Hin Hc].
  destruct (q1 =? ""); [exact Hin|].
  apply filter_In. split; [exact Hin|].
  exact (contains_trans _ _ _ H12 Hc).
Qed.

(** X3. Typing a currency's own code always finds it. *)
Theorem currency_found_by_own_code (curriences : list string) (c : string) :
  In c curriences -> In c (CurrencySelector.filteredCurrencies toLowerCase curriences c).
Proof.
  intros Hin. unfold CurrencySelector.filteredCurrencies.
  destruct (c =? ""); [exact Hin|].
  apply filter_In. split; [exact Hin | apply contains_refl].
Qed.

(** X4. The list shown keeps the loader's order and adds nothing: two
    currencies shown one before the other are in that order in the
    loader's list, and a list without repetition stays so. *)
Theorem currency_filter_keeps_order (curriences : list string) (q : string) :
  (forall a b, precedes a b (CurrencySelector.filteredCurrencies toLowerCase curriences q) -> precedes a b curriences)
  /\ (NoDup curriences -> NoDup (CurrencySelector.filteredCurrencies toLowerCase curriences q))
  /\ List.length (CurrencySelector.filteredCurrencies toLowerCase curriences q) <= List.length curriences.
Proof.
  unfold CurrencySelector.filteredCurrencies.
  destruct (q =? ""); [auto|].
  split; [|split].
  - intros a b. apply filter_precedes_inv.
  - apply NoDup_filter.
  - apply filter_length_le.
Qed.

(** X5. The "No currency found" line is on screen exactly when the
    popover is open and either the loader's list is empty or the search
    text is non-empty and matches no currency. *)
Theorem no_currency_found_iff (curriences : list string) (s : CurrencySelector.State) :
  CurrencySelector.noCurrencyFound toLowerCase curriences s = true
  <-> CurrencySelector.isOpen s = true
      /\ (curriences = []
          \/ (CurrencySelector.searchQuery s <> ""
              /\ forall c, In c curriences ->
                           contains (toLowerCase (CurrencySelector.searchQuery s))
                                    (toLowerCase c) = false)).
Proof.
  unfold CurrencySelector.noCurrencyFound.
  rewrite andb_true_iff, Nat.eqb_eq, length_zero_iff_nil.
  apply and_iff_compat_l.
  unfold CurrencySelector.filteredCurrencies.
  destruct (String.eqb_spec (CurrencySelector.searchQuery s) "") as [Hq|Hq].
  - split; [auto | intros [H|[H _]]; [exact H | contradiction]].
  - split.
    + intros H. destruct curriences as [|c0 cs]; [now left | right].
      split; [exact Hq|]. intros c Hc.
      destruct (contains _ (toLowerCase c)) eqn:Hm; [|reflexivity].
      assert (Hin : In c (filter
                 (fun currency =>
                    contains (toLowerCase (CurrencySelector.searchQuery s))
                             (toLowerCase currency)) (c0 :: cs)))
        by (apply filter_In; auto).
      rewrite H in Hin. destruct Hin.
    + intros [->|[_ H]]; [reflexivity|].
      induction curriences as [|c cs IH]; [reflexivity|].
      simpl. rewrite (H c) by now left. apply IH. intros c' Hc'. apply H. now right.
Qed.

(** X6. Whatever the user does, the value submitted with the form is the
    default value or one of the loader's currencies. *)
Theorem selected_currency_invariant
  (curriences : list string) (defaultValue : string)
  (es : list CurrencySelector.Event) (s : CurrencySelector.State) :
  CurrencySelector.run toLowerCase curriences es (CurrencySelector.init defaultValue)
  = Some s ->
  CurrencySelector.hiddenInputValue s = defaultValue
  \/ In (CurrencySelector.hiddenInputValue s) curriences.
Proof.
  unfold CurrencySelector.hiddenInputValue.
  assert (G : forall es s0 s,
             CurrencySelector.selectedCurrency s0 = defaultValue
             \/ In (CurrencySelector.selectedCurrency s0) curriences ->
             CurrencySelector.run toLowerCase curriences es s0 = Some s ->
             CurrencySelector.selectedCurrency s = defaultValue
             \/ In (CurrencySelector.selectedCurrency s) curriences).
  { clear es s. induction es as [|e es IH]; intros s0 s H0 Hrun; simpl in Hrun.
    - injection Hrun as <-. exact H0.
    - destruct (CurrencySelector.possible toLowerCase curriences s0 e) eqn:Hp;
        [|discriminate].
      apply (IH (CurrencySelector.handle e s0) s); [|exact Hrun].
      destruct e as [b|text|c]; simpl; try exact H0.
      right. simpl in Hp. apply includes_In in Hp.
      unfold CurrencySelector.filteredCurrencies in Hp.
      destruct (_ =? ""); [exact Hp|]. now apply filter_In in Hp. }
  intros Hrun. apply (G es (CurrencySelector.init defaultValue) s); [now left | exact Hrun].
Qed.

(** X7. A click on a shown row selects it: the popover closes, the hidden
    input holds that currency, the rows stay the same and, the loader's
    list being without repetition, that row alone is marked selected. *)
Theorem row_click_selects
  (curriences : list string) (s : CurrencySelector.State) (c : string) :
  NoDup curriences ->
  In c (CurrencySelector.filteredCurrencies toLowerCase curriences (CurrencySelector.searchQuery s)) ->
  let s' := CurrencySelector.handleSelect c s in
  CurrencySelector.isOpen s' = false
  /\ CurrencySelector.hiddenInputValue s' = c
  /\ map CurrencySelector.rowCurrency (CurrencySelector.rows toLowerCase curriences s')
     = map CurrencySelector.rowCurrency (CurrencySelector.rows toLowerCase curriences s)
  /\ filter CurrencySelector.isSelected (CurrencySelector.rows toLowerCase curriences s')
     = [ CurrencySelector.mkRow c true ].
Proof.
  intros Hnd Hin s'. split; [reflexivity|]. split; [reflexivity|].
  unfold CurrencySelector.rows. subst s'. cbn [CurrencySelector.handleSelect
    CurrencySelector.setIsOpen CurrencySelector.setSelectedCurrency
    CurrencySelector.searchQuery CurrencySelector.selectedCurrency].
  split; [rewrite !map_map; reflexivity|].
  assert (Hnd' : NoDup (CurrencySelector.filteredCurrencies toLowerCase curriences (CurrencySelector.searchQuery s)))
    by (apply currency_filter_keeps_order_aux; exact Hnd).
  revert Hnd' Hin. generalize (CurrencySelector.filteredCurrencies toLowerCase curriences (CurrencySelector.searchQuery s)).
  intros l Hl Hin.
  transitivity (map (fun x => CurrencySelector.mkRow x (c =? x))
                    (filter (fun x => c =? x) l)).
  - clear. induction l as [|x l IH]; [reflexivity|].
    simpl. destruct (c =? x) eqn:E; simpl; rewrite ?E, IH; reflexivity.
  - rewrite (filter_eqb_NoDup c l Hl Hin). simpl. now rewrite String.eqb_refl.
Qed.

End CurrencySelectorFacts.

Lemma currency_filter_matches_witness :
  In "USD" (CurrencySelector.filteredCurrencies asciiToLowerCase
              [ "EUR"; "USD"; "AUD" ] "us").
Proof.
  destruct (currency_filter_matches asciiToLowerCase [ "EUR"; "USD"; "AUD" ] "us" "USD")
    as [_ H]; [discriminate|].
  apply H. split; [cbn; auto | exists "", "d"; reflexivity].
Defined.

Lemma currency_search_narrows_witness :
  incl (CurrencySelector.filteredCurrencies asciiToLowerCase
          [ "EUR"; "USD"; "AUD" ] "USD")
       (CurrencySelector.filteredCurrencies asciiToLowerCase
          [ "EUR"; "USD"; "AUD" ] "u").
Proof.
  apply (currency_search_narrows asciiToLowerCase [ "EUR"; "USD"; "AUD" ] "u" "USD");
    [discriminate | reflexivity].
Defined.

Lemma currency_found_by_own_code_witness :
  In "AUD" (CurrencySelector.filteredCurrencies asciiToLowerCase
              [ "EUR"; "USD"; "AUD" ] "AUD").
Proof.
  apply (currency_found_by_own_code asciiToLowerCase [ "EUR"; "USD"; "AUD" ] "AUD").
  cbn. auto.
Defined.

Lemma currency_filter_keeps_order_witness :
  NoDup (CurrencySelector.filteredCurrencies asciiToLowerCase
           [ "EUR"; "USD"; "AUD" ] "u").
Proof.
  apply (currency_filter_keeps_order asciiToLowerCase [ "EUR"; "USD"; "AUD" ] "u").
  repeat constructor; cbn; intuition discriminate.
Defined.

Lemma no_currency_found_iff_witness :
  CurrencySelector.noCurrencyFound asciiToLowerCase [ "EUR"; "USD" ]
    (CurrencySelector.mkState true "EUR" "zz") = true.
Proof.
  apply (no_currency_found_iff asciiToLowerCase [ "EUR"; "USD" ]
           (CurrencySelector.mkState true "EUR" "zz")).
  split; [reflexivity|].
  right. split; [discriminate|].
  intros c [<-|[<-|[]]]; reflexivity.
Defined.

Lemma selected_currency_invariant_witness :
  CurrencySelector.hiddenInputValue (CurrencySelector.mkState false "USD" "us") = "EUR"
  \/ In (CurrencySelector.hiddenInputValue (CurrencySelector.mkState false "USD" "us"))
        [ "EUR"; "USD"; "AUD" ].
Proof.
  apply (selected_currency_invariant asciiToLowerCase [ "EUR"; "USD"; "AUD" ] "EUR"
           [ CurrencySelector.OpenChange true;
             CurrencySelector.SearchChange "us";
             CurrencySelector.RowClick "USD" ]).
  reflexivity.
Defined.

Lemma row_click_selects_witness :
  filter CurrencySelector.isSelected
    (CurrencySelector.rows asciiToLowerCase [ "EUR"; "USD"; "AUD" ]
       (CurrencySelector.handleSelect "AUD"
          (CurrencySelector.mkState true "EUR" "u")))
  = [ CurrencySelector.mkRow "AUD" true ].
Proof.
  apply (row_click_selects asciiToLowerCase [ "EUR"; "USD"; "AUD" ]
           (CurrencySelector.mkState true "EUR" "u") "AUD").
  - repeat constructor; cbn; intuition discriminate.
  - vm_compute. auto.
Defined.

(** * Further properties: the import-users dialog *)

Lemma handleSelectFile_selected (files : option (list ImportUsersDialog.File))
  (s : ImportUsersDialog.State) (f : ImportUsersDialog.File) :
  ImportUsersDialog.selectedFile (ImportUsersDialog.handleSelectFile files s) = Some f ->
  ImportUsersDialog.selectedFile s = Some f \/ ImportUsersDialog.type f = "text/csv".
Proof.
  unfold ImportUsersDialog.handleSelectFile.
  destruct files as [[|f0 fs]|]; cbn; auto.
  destruct (String.eqb_spec (ImportUsersDialog.type f0) "text/csv") as [Heq|Hne]; cbn; auto.
  intros H. injection H as <-. now right.
Qed.

(** X8. Whatever the user does with the dialog, a selected file has type
    "text/csv"; so the "Import now" button is enabled only with a CSV
    file selected and no submission in progress. *)
Theorem selected_file_is_csv (es : list ImportUsersDialog.Event) (disabled : bool) :
  let s := ImportUsersDialog.run es ImportUsersDialog.init in
  (forall f, ImportUsersDialog.selectedFile s = Some f ->
             ImportUsersDialog.type f = "text/csv")
  /\ (ImportUsersDialog.importDisabled s disabled = false ->
      disabled = false
      /\ exists f, ImportUsersDialog.selectedFile s = Some f
                   /\ ImportUsersDialog.type f = "text/csv").
Proof.
  assert (G : forall es s0,
             (forall f, ImportUsersDialog.selectedFile s0 = Some f ->
                        ImportUsersDialog.type f = "text/csv") ->
             forall f, ImportUsersDialog.selectedFile (ImportUsersDialog.run es s0) = Some f ->
                       ImportUsersDialog.type f = "text/csv").
  { clear es. induction es as [|e es IH]; intros s0 H0; [exact H0|].
    cbn. apply IH. intros f Hf.
    destruct e as [| |files|]; cbn in Hf; try (now apply H0).
    apply handleSelectFile_selected in Hf. destruct Hf as [Hf|Hf]; auto. }
  intros s. assert (Hs := G es ImportUsersDialog.init (fun f H => ltac:(discriminate))).
  split; [exact Hs|].
  unfold ImportUsersDialog.importDisabled. fold s in Hs.
  destruct (ImportUsersDialog.selectedFile s) as [f|]; [|discriminate].
  intros ->. split; [reflexivity|]. exists f. auto.
Qed.

Lemma selected_file_is_csv_witness :
  false = false
  /\ exists f,
       ImportUsersDialog.selectedFile
         (ImportUsersDialog.run
            [ ImportUsersDialog.Open;
              ImportUsersDialog.SelectFile
                (Some [ ImportUsersDialog.mkFile "users.csv" "text/csv" ]);
              ImportUsersDialog.SelectFile
                (Some [ ImportUsersDialog.mkFile "users.png" "image/png" ]) ]
            ImportUsersDialog.init) = Some f
       /\ ImportUsersDialog.type f = "text/csv".
Proof.
  apply (selected_file_is_csv
           [ ImportUsersDialog.Open;
             ImportUsersDialog.SelectFile
               (Some [ ImportUsersDialog.mkFile "users.csv" "text/csv" ]);
             ImportUsersDialog.SelectFile
               (Some [ ImportUsersDialog.mkFile "users.png" "image/png" ]) ]
           false).
  reflexivity.
Defined.

(** X9. Choosing files.  Only the first chosen file counts.  If it is a
    CSV file it becomes the selected file and the error is cleared.
    Otherwise (nothing chosen, or a first file of another type) the error
    message is set and the selected file stays what it was, so a file
    accepted earlier stays selected and the "Import now" button stays as
    it was.  Nothing else changes. *)
Theorem select_file_outcome
  (files : option (list ImportUsersDialog.File)) (s : ImportUsersDialog.State) :
  let s' := ImportUsersDialog.handleSelectFile files s in
  (forall f rest, files = Some (f :: rest) ->
                  ImportUsersDialog.type f = "text/csv" ->
                  ImportUsersDialog.selectedFile s' = Some f
                  /\ ImportUsersDialog.error s' = "")
  /\ ((files = None \/ files = Some []
       \/ exists f rest, files = Some (f :: rest)
                         /\ ImportUsersDialog.type f <> "text/csv") ->
      ImportUsersDialog.selectedFile s' = ImportUsersDialog.selectedFile s
      /\ ImportUsersDialog.error s' = "Invalid file type. Please select a CSV file."
      /\ forall disabled, ImportUsersDialog.importDisabled s' disabled
                          = ImportUsersDialog.importDisabled s disabled)
  /\ ImportUsersDialog.isDialogOpen s' = ImportUsersDialog.isDialogOpen s
  /\ ImportUsersDialog.effects s' = ImportUsersDialog.effects s.
Proof.
  intros s'. subst s'. unfold ImportUsersDialog.handleSelectFile.
  split; [|split].
  - intros f rest -> Hf. cbn. rewrite Hf. cbn. auto.
  - intros [->|[->|(f & rest & -> & Hf)]]; cbn; auto.
    apply String.eqb_neq in Hf. rewrite Hf. cbn. auto.
  - destruct files as [[|f fs]|]; cbn; auto.
    destruct (ImportUsersDialog.type f =? "text/csv"); cbn; auto.
Qed.

Lemma select_file_outcome_witness :
  ImportUsersDialog.selectedFile
    (ImportUsersDialog.handleSelectFile
       (Some [ ImportUsersDialog.mkFile "users.png" "image/png" ])
       (ImportUsersDialog.mkState true
          (Some (ImportUsersDialog.mkFile "users.csv" "text/csv")) "" []))
  = Some (ImportUsersDialog.mkFile "users.csv" "text/csv")
  /\ ImportUsersDialog.error
       (ImportUsersDialog.handleSelectFile
          (Some [ ImportUsersDialog.mkFile "users.png" "image/png" ])
          (ImportUsersDialog.mkState true
             (Some (ImportUsersDialog.mkFile "users.csv" "text/csv")) "" []))
     = "Invalid file type. Please select a CSV file."
  /\ forall disabled,
       ImportUsersDialog.importDisabled
         (ImportUsersDialog.handleSelectFile
            (Some [ ImportUsersDialog.mkFile "users.png" "image/png" ])
            (ImportUsersDialog.mkState true
               (Some (ImportUsersDialog.mkFile "users.csv" "text/csv")) "" []))
         disabled
       = ImportUsersDialog.importDisabled
           (ImportUsersDialog.mkState true
              (Some (ImportUsersDialog.mkFile "users.csv" "text/csv")) "" [])
           disabled.
Proof.
  apply (select_file_outcome
           (Some [ ImportUsersDialog.mkFile "users.png" "image/png" ])
           (ImportUsersDialog.mkState true
              (Some (ImportUsersDialog.mkFile "users.csv" "text/csv")) "" [])).
  right. right. eexists. eexists. split; [reflexivity | discriminate].
Defined.

(** X10. The dialog shows the success panel whatever the fetcher holds:
    the condition [fetcher.data?.success || true] is truthy for every
    value of [fetcher.data], so the upload form is never the body. *)
Theorem dialog_body_is_success_panel (data : option ImportUsersDialog.FetcherData) :
  truthy (jsOr (ImportUsersDialog.dataSuccess data) (Bool true)) = true
  /\ ImportUsersDialog.body data = ImportUsersDialog.SuccessPanel
  /\ ImportUsersDialog.body data <> ImportUsersDialog.UploadForm.
Proof.
  assert (H : truthy (jsOr (ImportUsersDialog.dataSuccess data) (Bool true)) = true).
  { unfold jsOr. destruct (truthy (ImportUsersDialog.dataSuccess data)) eqn:E; auto. }
  unfold ImportUsersDialog.body. rewrite H. repeat split. discriminate.
Qed.

(** * Further properties: the general-settings route *)

(** [find] returns the first element that passes the test. *)
Lemma find_first {A : Type} (f : A -> bool) (l : list A) (x : A) :
  find f l = Some x
  <-> exists l1 l2, l = (l1 ++ x :: l2)%list /\ f x = true
                    /\ forall y, In y l1 -> f y = false.
Proof.
  induction l as [|a l IH]; simpl.
  - split; [discriminate | intros (l1 & l2 & H & _); destruct l1; discriminate].
  - destruct (f a) eqn:Ha.
    + split.
      * intros H. injection H as <-. exists [], l. simpl. tauto.
      * intros (l1 & l2 & H & Hx & Hl1). destruct l1 as [|b l1]; simpl in H.
        -- injection H as -> _. reflexivity.
        -- injection H as <- _. rewrite (Hl1 a) in Ha by now left. discriminate.
    + rewrite IH. split.
      * intros (l1 & l2 & -> & Hx & Hl1). exists (a :: l1), l2. simpl.
        split; [reflexivity|]. split; [exact Hx|].
        intros y [<-|Hy]; auto.
      * intros (l1 & l2 & H & Hx & Hl1). destruct l1 as [|b l1]; simpl in H.
        -- injection H as -> _. congruence.
        -- injection H as <- ->. exists l1, l2. split; [reflexivity|].
           split; [exact Hx|]. intros y Hy. apply Hl1. now right.
Qed.

Lemma find_none {A : Type} (f : A -> bool) (l : list A) :
  find f l = None <-> forall y, In y l -> f y = false.
Proof.
  induction l as [|a l IH]; simpl.
  - split; [intros _ y [] | reflexivity].
  - destruct (f a) eqn:Ha.
    + split; [discriminate|]. intros H. rewrite (H a) in Ha by now left. discriminate.
    + rewrite IH. split.
      * intros H y [<-|Hy]; auto.
      * intros H y Hy. apply H. now right.
Qed.

Section RouteFacts.

Variables Organizations TierLimit FormData Reason : Type.
Variable makeShelfError : SettingsGeneral.Thrown -> string -> Reason.
Variable status : Reason -> nat.



(** X13. The action changes only the organization the permission check
    answered for: a recorded call of [updateOrganization] carries the id
    of that organization and the session's user id, the name and the
    currency of the parsed form, the uploaded image, and SSO details
    exactly when that organization has SSO enabled. *)
Theorem action_updates_own_organization
  (env : SettingsGeneral.ActionEnv FormData) (args : SettingsGeneral.UpdateArgs) :
  In (SettingsGeneral.UpdateOrganization args)
     (snd (SettingsGeneral.action makeShelfError status env)) ->
  exists oid co fd payload,
    SettingsGeneral.requirePermissionUpdate env = SettingsGeneral.Returns (oid, co)
    /\ SettingsGeneral.formData env = SettingsGeneral.Returns fd
    /\ SettingsGeneral.parseData env fd
         (SettingsGeneral.EditWorkspaceFormSchema
            (SettingsGeneral.enabledSso co)
            (SettingsGeneral.type co =? "PERSONAL"))
       = SettingsGeneral.Returns payload
    /\ SettingsGeneral.updId args = SettingsGeneral.id co
    /\ SettingsGeneral.updUserId args = SettingsGeneral.actionUserId env
    /\ SettingsGeneral.updName args = SettingsGeneral.payloadName payload
    /\ SettingsGeneral.updCurrency args = SettingsGeneral.payloadCurrency payload
    /\ SettingsGeneral.parseMultipartImage env
       = SettingsGeneral.Returns (SettingsGeneral.updImage args)
    /\ (SettingsGeneral.updSsoDetails args = None
        <-> SettingsGeneral.enabledSso co = false).
Proof.
  unfold SettingsGeneral.action, SettingsGeneral.actionTry, SettingsGeneral.bindM,
    SettingsGeneral.await, SettingsGeneral.call, SettingsGeneral.ret,
    SettingsGeneral.throw.
  destruct (SettingsGeneral.requirePermissionUpdate env) as [[oid co]|t];
    cbn [fst snd]; [|intros []].
  destruct (SettingsGeneral.formData env) as [fd|t]; cbn [fst snd]; [|intros []].
  destruct (SettingsGeneral.parseData env fd _) as [payload|t] eqn:Hp;
    cbn [fst snd]; [|intros []].
  destruct (String.eqb_spec (SettingsGeneral.id co) (SettingsGeneral.payloadId payload))
    as [Hid|Hid]; cbn [negb fst snd]; [|intros []].
  destruct (SettingsGeneral.parseMultipartImage env) as [file|t]; cbn [fst snd];
    [|intros []].
  match goal with
  | |- context [SettingsGeneral.updateOrganization env ?a] =>
      set (args0 := a); assert (Hin : forall l, l = [SettingsGeneral.UpdateOrganization args0]
                \/ l = [SettingsGeneral.UpdateOrganization args0;
                        SettingsGeneral.SendNotification
                          (SettingsGeneral.workspaceUpdated
                             (SettingsGeneral.actionUserId env))] ->
                In (SettingsGeneral.UpdateOrganization args) l -> args = args0)
  end.
  { intros l [-> | ->] Hl; cbn in Hl; intuition (try discriminate); congruence. }
  intros H. assert (Hargs : args = args0).
  { destruct (SettingsGeneral.updateOrganization env args0) as [[]|t];
      [destruct (SettingsGeneral.sendNotification env _) as [[]|t]|];
      cbn [fst snd app] in H; (eapply Hin; [|exact H]); auto. }
  subst args. exists oid, co, fd, payload. subst args0. cbn.
  repeat split; auto.
  - destruct (SettingsGeneral.enabledSso co); [discriminate | reflexivity].
  - intros ->. reflexivity.
Qed.

(** The four ways in which the [try] and [catch] blocks of the action
    end. *)
Lemma action_try_cases (env : SettingsGeneral.ActionEnv FormData) :
  let userId := SettingsGeneral.actionUserId env in
  let notification := SettingsGeneral.workspaceUpdated userId in
  let failure cause :=
    SettingsGeneral.Json (SettingsGeneral.Error (makeShelfError cause userId))
                         (Some (status (makeShelfError cause userId))) in
  (exists args,
      SettingsGeneral.action makeShelfError status env
      = (SettingsGeneral.Redirect "/settings/general",
         [ SettingsGeneral.UpdateOrganization args;
           SettingsGeneral.SendNotification notification ])
      /\ SettingsGeneral.updateOrganization env args = SettingsGeneral.Returns tt
      /\ SettingsGeneral.sendNotification env notification = SettingsGeneral.Returns tt
      /\ SettingsGeneral.updUserId args = userId)
  \/ (exists args cause,
         SettingsGeneral.action makeShelfError status env
         = (failure cause,
            [ SettingsGeneral.UpdateOrganization args;
              SettingsGeneral.SendNotification notification ])
         /\ SettingsGeneral.updateOrganization env args = SettingsGeneral.Returns tt
         /\ SettingsGeneral.sendNotification env notification
            = SettingsGeneral.Throws cause)
  \/ (exists args cause,
         SettingsGeneral.action makeShelfError status env
         = (failure cause, [ SettingsGeneral.UpdateOrganization args ])
         /\ SettingsGeneral.updateOrganization env args = SettingsGeneral.Throws cause)
  \/ (exists cause,
         SettingsGeneral.action makeShelfError status env = (failure cause, [])).
Proof.
  intros userId notification failure. subst failure notification userId.
  unfold SettingsGeneral.action, SettingsGeneral.actionTry, SettingsGeneral.bindM,
    SettingsGeneral.await, SettingsGeneral.call, SettingsGeneral.ret,
    SettingsGeneral.throw.
  destruct (SettingsGeneral.requirePermissionUpdate env) as [[oid co]|t];
    cbn [fst snd]; [|do 3 right; eexists; reflexivity].
  destruct (SettingsGeneral.formData env) as [fd|t]; cbn [fst snd];
    [|do 3 right; eexists; reflexivity].
  destruct (SettingsGeneral.parseData env fd _) as [payload|t];
    cbn [fst snd]; [|do 3 right; eexists; reflexivity].
  destruct (negb _); [do 3 right; eexists; reflexivity|].
  destruct (SettingsGeneral.parseMultipartImage env) as [file|t]; cbn [fst snd];
    [|do 3 right; eexists; reflexivity].
  match goal with
  | |- context [SettingsGeneral.updateOrganization env ?a] => set (args0 := a)
  end.
  destruct (SettingsGeneral.updateOrganization env args0) as [[]|t] eqn:Hu;
    cbn [fst snd app].
  - destruct (SettingsGeneral.sendNotification env _) as [[]|t] eqn:Hn;
      cbn [fst snd app].
    + left. exists args0. auto.
    + right. left. exists args0, t. auto.
  - do 2 right. left. exists args0, t. auto.
Qed.


(** X15. A form that names another organization than the one the
    permission check answered for is refused: the answer is the JSON of
    "You are not allowed to edit this organization." and nothing is
    called. *)
Theorem action_refuses_other_organization
  (env : SettingsGeneral.ActionEnv FormData)
  (oid : string) (co : SettingsGeneral.Organization) (fd : FormData)
  (payload : SettingsGeneral.Payload) :
  SettingsGeneral.requirePermissionUpdate env = SettingsGeneral.Returns (oid, co) ->
  SettingsGeneral.formData env = SettingsGeneral.Returns fd ->
  SettingsGeneral.parseData env fd
    (SettingsGeneral.EditWorkspaceFormSchema
       (SettingsGeneral.enabledSso co)
       (SettingsGeneral.type co =? "PERSONAL"))
  = SettingsGeneral.Returns payload ->
  SettingsGeneral.payloadId payload <> SettingsGeneral.id co ->
  let reason :=
    makeShelfError
      (SettingsGeneral.ShelfError "You are not allowed to edit this organization."
         "Organization" None [])
      (SettingsGeneral.actionUserId env) in
  SettingsGeneral.action makeShelfError status env
  = (SettingsGeneral.Json (SettingsGeneral.Error reason) (Some (status reason)), []).
Proof.
  intros Hp Hf Hd Hid reason. subst reason.
  unfold SettingsGeneral.action, SettingsGeneral.actionTry, SettingsGeneral.bindM,
    SettingsGeneral.await, SettingsGeneral.call, SettingsGeneral.ret,
    SettingsGeneral.throw.
  rewrite Hp. cbn [fst snd]. rewrite Hf, Hd.
  assert (Hne : (SettingsGeneral.id co =? SettingsGeneral.payloadId payload) = false)
    by (apply String.eqb_neq; congruence).
  rewrite Hne. reflexivity.
Qed.

End RouteFacts.



Lemma action_updates_own_organization_witness :
  exists oid co fd payload,
    SettingsGeneral.requirePermissionUpdate (SettingsGeneral.sampleActionEnv "org-1")
    = SettingsGeneral.Returns (oid, co)
    /\ SettingsGeneral.formData (SettingsGeneral.sampleActionEnv "org-1")
       = SettingsGeneral.Returns fd
    /\ SettingsGeneral.parseData (SettingsGeneral.sampleActionEnv "org-1") fd
         (SettingsGeneral.EditWorkspaceFormSchema
            (SettingsGeneral.enabledSso co)
            (SettingsGeneral.type co =? "PERSONAL"))
       = SettingsGeneral.Returns payload
    /\ "org-1" = SettingsGeneral.id co
    /\ "user-1" = SettingsGeneral.actionUserId (SettingsGeneral.sampleActionEnv "org-1")
    /\ "Acme Ltd" = SettingsGeneral.payloadName payload
    /\ "EUR" = SettingsGeneral.payloadCurrency payload
    /\ SettingsGeneral.parseMultipartImage (SettingsGeneral.sampleActionEnv "org-1")
       = SettingsGeneral.Returns None
    /\ (@None SettingsGeneral.SsoDetails = None <-> SettingsGeneral.enabledSso co = false).
Proof.
  apply (action_updates_own_organization unit nat (fun _ _ => 500) (fun r => r)
           (SettingsGeneral.sampleActionEnv "org-1")
           (SettingsGeneral.mkUpdateArgs "org-1" "Acme Ltd" None "user-1" "EUR" None)).
  cbn. auto.
Defined.

Lemma action_refuses_other_organization_witness :
  SettingsGeneral.action (fun _ _ => 403) (fun r => r)
    (SettingsGeneral.sampleActionEnv "org-2")
  = (SettingsGeneral.Json (SettingsGeneral.Error 403) (Some 403), []).
Proof.
  apply (action_refuses_other_organization unit nat (fun _ _ => 403) (fun r => r)
           (SettingsGeneral.sampleActionEnv "org-2")
           "org-1" (SettingsGeneral.sampleOrganization "org-1" "TEAM") tt
           (SettingsGeneral.samplePayload "org-2"));
    try reflexivity.
  discriminate.
Defined.


(** * Further properties: the main menu *)

(** Two strings cut at their first [c] have the same parts. *)
Lemma append_split_unique (c : ascii) (a a' r r' : string) :
  lacks c a = true -> lacks c a' = true ->
  (r = "" \/ exists r0, r = String c r0) ->
  (r' = "" \/ exists r0, r' = String c r0) ->
  a ++ r = a' ++ r' -> a = a' /\ r = r'.
Proof.
  revert a'. induction a as [|d a IH]; intros [|d' a'] Ha Ha' Hr Hr' H; simpl in *.
  - auto.
  - apply andb_prop in Ha'. destruct Ha' as [Hd' _].
    destruct Hr as [->|[r0 ->]]; [discriminate|].
    injection H as <- _. rewrite Ascii.eqb_refl in Hd'. discriminate.
  - apply andb_prop in Ha. destruct Ha as [Hd _].
    destruct Hr' as [->|[r0 ->]]; [discriminate|].
    injection H as -> _. rewrite Ascii.eqb_refl in Hd. discriminate.
  - apply andb_prop in Ha. apply andb_prop in Ha'.
    injection H as -> H.
    destruct (IH a' (proj2 Ha) (proj2 Ha') Hr Hr' H) as [-> ->]. auto.
Qed.

(** X16. The keys of a returned sequence are pairwise distinct, for every
    user and role: the templated target is never "scanner" or
    "settings". *)
Theorem menu_keys_distinct (user : option UserData) (role : value) :
  exists r,
    useMainMenuItems user role = Ok r
    /\ NoDup (map to (menuItemsTop r))
    /\ NoDup (map to (menuItemsBottom r)).
Proof.
  rewrite useMainMenuItems_ok. eexists; split; [reflexivity|].
  assert (Hs : assetLabelsUrl user <> "scanner") by discriminate.
  assert (Ht : assetLabelsUrl user <> "settings") by discriminate.
  unfold roleFilter. destruct (truthy role).
  - cbn [menuItemsTop menuItemsBottom].
    change (removeItems itemsToRemove menuItemsTop_literal)
      with [ plainItem "asset" "assets" "Assets";
             plainItem "kit" "kits" "Kits";
             plainItem "calendar" "calendar" "Calendar";
             plainItem "bookings" "bookings" "Bookings" ].
    change (removeItems itemsToRemove
              [ assetLabelsItem (assetLabelsUrl user); scannerItem; settingsItem ])
      with [ assetLabelsItem (assetLabelsUrl user); scannerItem ].
    cbn [map to plainItem assetLabelsItem scannerItem].
    split; repeat constructor; cbn; intuition (try discriminate; congruence).
  - cbn [menuItemsTop menuItemsBottom]. split.
    + cbn. repeat constructor; cbn; intuition discriminate.
    + cbn [map to assetLabelsItem scannerItem settingsItem].
      repeat constructor; cbn; intuition (try discriminate; congruence).
Qed.

(** X17. Profile values are copied into the target as they are.  An
    email that ends in the text of a firstName parameter gives, with no
    first name, the same menu as the shorter email with that first
    name. *)
Theorem profile_values_are_copied_verbatim (e f : string) (l role : value) :
  f <> "" ->
  useMainMenuItems (Some (mkUser (Str (e ++ "&firstName=" ++ f)) Undefined l)) role
  = useMainMenuItems (Some (mkUser (Str e) (Str f) l)) role.
Proof.
  intros Hf. rewrite !useMainMenuItems_ok. do 4 f_equal.
  unfold assetLabelsUrl, nameSegment.
  cbn [optChain email firstName lastName truthy toString].
  apply String.eqb_neq in Hf. rewrite Hf. cbn [negb].
  change ("&" ++ "firstName" ++ "=" ++ f) with ("&firstName=" ++ f).
  change ("" ++ ?x) with x.
  now rewrite !append_assoc.
Qed.

Lemma profile_values_are_copied_verbatim_witness :
  useMainMenuItems (Some (mkUser (Str "a@b.com&firstName=Jo") Undefined Undefined))
                   (Bool false)
  = useMainMenuItems (Some (mkUser (Str "a@b.com") (Str "Jo") Undefined)) (Bool false).
Proof.
  apply (profile_values_are_copied_verbatim "a@b.com" "Jo" Undefined (Bool false)).
  discriminate.
Defined.

(** X18. Apart from that, the target determines what was put into it.
    For two users whose email and names contain no [&], equal targets mean
    equal emails and equal firstName and lastName segments: each name is
    falsy for both users or the same text for both. *)
Theorem clean_profiles_have_distinct_targets
  (e1 e2 : string) (f1 f2 l1 l2 : value) :
  lacks "&" e1 = true -> lacks "&" e2 = true ->
  lacks "&" (toString f1) = true -> lacks "&" (toString f2) = true ->
  lacks "&" (toString l1) = true -> lacks "&" (toString l2) = true ->
  assetLabelsTo (Some (mkUser (Str e1) f1 l1))
  = assetLabelsTo (Some (mkUser (Str e2) f2 l2)) ->
  e1 = e2
  /\ truthy f1 = truthy f2 /\ (truthy f1 = true -> toString f1 = toString f2)
  /\ truthy l1 = truthy l2 /\ (truthy l1 = true -> toString l1 = toString l2).
Proof.
  intros He1 He2 Hf1 Hf2 Hl1 Hl2 H.
  rewrite !assetLabelsTo_ok in H. injection H as H.
  unfold assetLabelsUrl in H. cbn [optChain email firstName lastName toString] in H.
  assert (Hshape : forall f l,
             nameSegment "firstName" f ++ nameSegment "lastName" l = ""
             \/ exists r0, nameSegment "firstName" f ++ nameSegment "lastName" l
                           = String "&" r0).
  { intros f l. unfold nameSegment.
    destruct (truthy f), (truthy l); cbn;
      first [now left | right; eexists; reflexivity]. }
  destruct (append_split_unique "&" e1 e2 _ _ He1 He2 (Hshape f1 l1) (Hshape f2 l2) H)
    as [-> Hseg].
  split; [reflexivity|]. clear H Hshape.
  unfold nameSegment in Hseg.
  destruct (truthy f1) eqn:Tf1, (truthy f2) eqn:Tf2;
    destruct (truthy l1) eqn:Tl1, (truthy l2) eqn:Tl2;
    cbn in Hseg; try discriminate Hseg;
    try (injection Hseg as Hseg);
    repeat match goal with
    | H : ?a ++ ?r = ?b ++ ?r' |- _ =>
        apply (append_split_unique "&" a b r r') in H;
        [destruct H as [? H] | assumption | assumption
         | first [now left | right; eexists; reflexivity]
         | first [now left | right; eexists; reflexivity] ]
    | H : String _ _ = String _ _ |- _ => injection H as H
    | H : ?a ++ "" = _ |- _ => rewrite append_empty_r in H
    | H : _ = ?a ++ "" |- _ => rewrite append_empty_r in H
    end;
    repeat split; auto; try discriminate; try congruence.
Qed.

Lemma clean_profiles_have_distinct_targets_witness :
  "a@b.com" = "a@b.com"
  /\ truthy (Str "Jo") = truthy (Str "Jo")
  /\ (truthy (Str "Jo") = true -> toString (Str "Jo") = toString (Str "Jo"))
  /\ truthy Undefined = truthy Null
  /\ (truthy Undefined = true -> toString Undefined = toString Null).
Proof.
  apply (clean_profiles_have_distinct_targets
           "a@b.com" "a@b.com" (Str "Jo") (Str "Jo") Undefined Null);
    reflexivity.
Defined.

(** X19. The hook never throws.  For every user (missing, or with any
    values in its fields) and every role value it returns a result: each
    plain read of [user.firstName] or [user.lastName] happens only after
    the optional-chaining test of the same field was truthy.  The target
    of the asset-labels entry is the base, the string conversion of the
    email whatever it is, and a segment for each truthy name; a role value
    that is not truthy gives back both literals unchanged. *)
Theorem hook_never_throws (user : option UserData) (role : value) :
  exists r,
    useMainMenuItems user role = Ok r
    /\ hd_error (menuItemsBottom r)
       = Some (assetLabelsItem
                 (orderTagsBase ++ toString (optChain user email)
                    ++ (if truthy (optChain user firstName)
                        then "&firstName=" ++ toString (optChain user firstName)
                        else "")
                    ++ (if truthy (optChain user lastName)
                        then "&lastName=" ++ toString (optChain user lastName)
                        else "")))
    /\ (truthy role = false ->
        exists bottom, menuItemsBottom_literal user = Ok bottom
                       /\ r = mkMenu menuItemsTop_literal bottom).
Proof.
  destruct (useMainMenuItems_head user role) as (r & Hr & Hhd).
  exists r. split; [exact Hr|]. split; [exact Hhd|].
  intros H. destruct (unrestricted_is_catalog_aux user role H) as (bottom & Hb & Hu).
  exists bottom. split; [exact Hb|]. congruence.
Qed.

Lemma hook_never_throws_witness :
  exists r,
    useMainMenuItems None Undefined = Ok r
    /\ hd_error (menuItemsBottom r)
       = Some (assetLabelsItem "https://www.shelf.nu/order-tags?email=undefined")
    /\ (truthy Undefined = false ->
        exists bottom, menuItemsBottom_literal None = Ok bottom
                       /\ r = mkMenu menuItemsTop_literal bottom).
Proof.
  exact (hook_never_throws None Undefined).
Defined.
